(** * Chargeback dashboard: the aggregation pipeline of [generate_dashboard.py]

    A shallow embedding of [process_data] and [_aggregate_dashboard_metrics]
    and the properties of the metrics bundle they build.

    Modelling conventions.
    - A pandas data frame is a [list] of rows; a boolean mask is a predicate
      [Row -> bool]; [df.loc[mask, "amount"].sum()] is [sum_amount (filter mask df)]
      and [mask.sum()] is [mask_sum mask df].
    - Nullable text columns are [option string]; nullable timestamps are
      [option Timestamp].  [is_fought] is produced by the SQL expression
      [IF(fcbs.sift_id IS NOT NULL, 1, 0)], so it is a [bool]: [== 1] reads
      [is_fought r = true] and [== 0] reads [is_fought r = false].
    - Amounts and rates are exact rationals ([Q]): binary floating point is
      idealised, and [round(x, 1)] is rounding to the nearest tenth with ties
      to even.  Equality of amounts is [Qeq].
    - [str.lower()] and [str.upper()] are modelled on ASCII letters; other
      bytes are left as they are.
    - Where pandas leaves the order of equal keys to the sorting algorithm
      ([sort_values], [value_counts]), the model uses a stable sort. *)

From Stdlib Require Import String Ascii Bool Arith ZArith QArith Qround List.
From Stdlib Require Import Lia Permutation Sorted.
Import ListNotations.

Local Open Scope string_scope.
Local Open Scope list_scope.
Local Close Scope Q_scope.
Local Open Scope nat_scope.

(** ** Generic column helpers *)

Section Columns.
Context {A : Type}.

(** [mask.sum()]: the number of rows the mask selects. *)
Definition mask_sum (mask : A -> bool) (df : list A) : nat :=
  length (filter mask df).

(** Stable insertion sort for a boolean order [leb]. *)
Fixpoint insert_by (leb : A -> A -> bool) (x : A) (l : list A) : list A :=
  match l with
  | [] => [x]
  | y :: l' => if leb x y then x :: y :: l' else y :: insert_by leb x l'
  end.

Definition sort_by (leb : A -> A -> bool) (l : list A) : list A :=
  fold_right (insert_by leb) [] l.

(** [Series.unique()]: distinct values in order of first appearance. *)
Fixpoint unique (eqb : A -> A -> bool) (l : list A) : list A :=
  match l with
  | [] => []
  | x :: l' => x :: filter (fun y => negb (eqb x y)) (unique eqb l')
  end.

(** [Series.dropna()] on a nullable column. *)
Fixpoint dropna (l : list (option A)) : list A :=
  match l with
  | [] => []
  | Some x :: l' => x :: dropna l'
  | None :: l' => dropna l'
  end.

(** [d.get(k)] on a dict kept as an association list. *)
Fixpoint dict_get {K : Type} (eqb : K -> K -> bool) (d : list (K * A)) (k : K)
  : option A :=
  match d with
  | [] => None
  | (k', v) :: d' => if eqb k' k then Some v else dict_get eqb d' k
  end.

(** [series[k] = v]: overwrite the entry labelled [k] when there is one,
    otherwise enlarge the series with a new last entry. *)
Fixpoint series_set {K : Type} (eqb : K -> K -> bool) (d : list (K * A))
  (k : K) (v : A) : list (K * A) :=
  match d with
  | [] => [(k, v)]
  | (k', v') :: d' =>
      if eqb k' k then (k', v) :: d' else (k', v') :: series_set eqb d' k v
  end.
End Columns.

Definition sum_nat (l : list nat) : nat := fold_right Nat.add 0 l.

Definition sum_Q (l : list Q) : Q := fold_right Qplus 0%Q l.

(** ** Strings *)

Definition lower_ascii (c : ascii) : ascii :=
  let n := nat_of_ascii c in
  if (65 <=? n) && (n <=? 90) then ascii_of_nat (n + 32) else c.

Definition upper_ascii (c : ascii) : ascii :=
  let n := nat_of_ascii c in
  if (97 <=? n) && (n <=? 122) then ascii_of_nat (n - 32) else c.

Fixpoint map_string (f : ascii -> ascii) (s : string) : string :=
  match s with
  | EmptyString => EmptyString
  | String c s' => String (f c) (map_string f s')
  end.

(** [s.lower()] and [s.upper()]. *)
Definition lower (s : string) : string := map_string lower_ascii s.
Definition upper (s : string) : string := map_string upper_ascii s.

(** [sub in t]. *)
Fixpoint contains (sub t : string) : bool :=
  if String.prefix sub t then true
  else match t with
       | EmptyString => false
       | String _ t' => contains sub t'
       end.

(** Equality of nullable text as the column comparison [col == s] computes it:
    a null cell compares unequal to everything. *)
Definition col_eq (cell s : option string) : bool :=
  match cell, s with
  | Some a, Some b => String.eqb a b
  | _, _ => false
  end.

(** ** Dates *)

Record Timestamp := mkTimestamp {
  ts_year : nat; ts_month : nat; ts_day : nat; ts_hour : nat; ts_minute : nat
}.

(** A monthly period, [Timestamp.to_period("M")]. *)
Record Period := mkPeriod { p_year : nat; p_month : nat }.

Definition to_period (t : Timestamp) : Period :=
  mkPeriod (ts_year t) (ts_month t).

Definition period_eqb (a b : Period) : bool :=
  (p_year a =? p_year b) && (p_month a =? p_month b).

Definition period_leb (a b : Period) : bool :=
  (p_year a <? p_year b) || ((p_year a =? p_year b) && (p_month a <=? p_month b)).

Definition digit (n : nat) : ascii := ascii_of_nat (48 + n mod 10).

(** [str(m)] for a monthly period: ["YYYY-MM"]. *)
Definition period_str (m : Period) : string :=
  let y := p_year m in
  let mo := p_month m in
  String (digit (y / 1000)) (String (digit (y / 100)) (String (digit (y / 10))
    (String (digit y) (String "-" (String (digit (mo / 10))
      (String (digit mo) EmptyString)))))).

(** ** Status mapping *)

Record StatusCfg := mkCfg { label : string; color : string; bg : string }.

Definition status_key_eqb (a b : option string) : bool :=
  match a, b with
  | Some x, Some y => String.eqb x y
  | None, None => true
  | _, _ => false
  end.

Definition STATUS_CONFIG : list (option string * StatusCfg) :=
  [ (Some "Won",                 mkCfg "Ganado" "#4CAF50" "#E8F5E9");
    (Some "Accepted",            mkCfg "Perdido" "#FF9800" "#FFF3E0");
    (Some "Documents submitted", mkCfg "Docs Enviados" "#2196F3" "#E3F2FD");
    (Some "Active",              mkCfg "Activo" "#9C27B0" "#F3E5F5");
    (Some "N/A (fought)",        mkCfg "N/A (Peleado)" "#FFC107" "#FFF8E1");
    (Some "N/A (non-fought)",    mkCfg "N/A (No Peleado)" "#9E9E9E" "#F5F5F5");
    (None,                       mkCfg "N/A" "#607D8B" "#ECEFF1") ].

Definition STATUS_ORDER : list (option string) :=
  [ Some "Won"; Some "Accepted"; Some "Documents submitted"; Some "Active";
    Some "N/A (fought)"; Some "N/A (non-fought)"; None ].

(** [STATUS_ORDER[:-1]]: the six statuses the aggregator enumerates. *)
Definition STATUS_ORDER_init : list (option string) := removelast STATUS_ORDER.

(** ** Records *)

(** One row of the query of [fetch_data]. *)
Record RawRow := mkRaw {
  user_id : Z;
  amount : Q;
  operator : option string;
  credit_card : option string;
  type : option string;
  bank : option string;
  country : option string;
  payment_date : option Timestamp;
  chargeback_received_date : option Timestamp;
  is_fought : bool;
  status : option string;
  submission_date : option Timestamp;
  result_date : option Timestamp
}.

(** A row of the frame after [process_data] has added its three columns. *)
Record Row := mkRow {
  raw :> RawRow;
  dashboard_status : option string;
  dashboard_date : option Timestamp;
  month : option Period
}.

Definition DataFrame := list Row.

Definition isna {A : Type} (x : option A) : bool :=
  match x with None => true | Some _ => false end.

(** [s.fillna(v)] on one cell. *)
Definition fillna {A : Type} (x : option A) (v : A) : A :=
  match x with Some a => a | None => v end.

(** The column assignments at the head of [process_data], row by row. *)
Definition add_columns (r : RawRow) : Row :=
  let ds0 := status r in
  let ds1 := if isna (status r) && is_fought r then Some "N/A (fought)" else ds0 in
  let ds2 := if isna (status r) && negb (is_fought r)
             then Some "N/A (non-fought)" else ds1 in
  let dd := match submission_date r with
            | Some d => Some d
            | None => payment_date r
            end in
  mkRow r ds2 dd (option_map to_period dd).

Definition classify (rows : list RawRow) : DataFrame := map add_columns rows.

(** ** Rounding *)

(** Nearest integer, ties to even. *)
Definition round_half_even (x : Q) : Z :=
  let f := Qfloor x in
  match Qcompare (x - inject_Z f) (1 # 2) with
  | Lt => f
  | Gt => (f + 1)%Z
  | Eq => if Z.even f then f else (f + 1)%Z
  end.

(** [round(x, 1)]. *)
Definition py_round1 (x : Q) : Q := Qmake (round_half_even (x * 10)) 10.

Definition Q_of_nat (n : nat) : Q := inject_Z (Z.of_nat n).

(** [won / (won + lost) * 100 if (won + lost) else 0], as written in the
    aggregator (not yet rounded). *)
Definition rate (won lost : nat) : Q :=
  if (won + lost =? 0)%nat then 0%Q
  else (Q_of_nat won / Q_of_nat (won + lost) * 100)%Q.

(** ** The metrics bundle *)

Record StatusCell := mkCell { cell_count : nat; cell_amount : Q }.

(** One record of a ranking table; [key] is the [operator] or [bank] column
    of the grouped frame after [reset_index]. *)
Record RankEntry := mkEntry { key : string; count : nat; total : Q }.

Record TimeSeries := mkSeries {
  month_labels : list string;
  by_status : list (option string * list Q);
  count_by_status : list (option string * list nat);
  success : list Q
}.

Record Metrics := mkMetrics {
  total_records : nat;
  total_amount : Q;
  fought_amount : Q;
  recovered_amount : Q;
  lost_amount : Q;
  fought_count : nat;
  lost_count : nat;
  won_count : nat;
  success_rate : Q;
  status_summary : list (option string * StatusCell);
  series_payment : TimeSeries;
  series_cb : TimeSeries;
  top_operators : list RankEntry;
  top_operators_won : list RankEntry;
  top_banks_total : list RankEntry;
  top_banks_won : list RankEntry;
  status_donut_labels : list string;
  status_donut_values : list nat;
  status_donut_colors : list string;
  type_donut_labels : list string;
  type_donut_values : list nat;
  type_donut_colors : list string;
  country_donut_labels : list string;
  country_donut_values : list nat;
  country_donut_colors : list string
}.

(** ** The aggregator *)

Definition sum_amount (df : DataFrame) : Q := sum_Q (map (fun r : Row => amount r) df).

Definition won_mask (r : Row) : bool := col_eq (status r) (Some "Won").
Definition lost_mask (r : Row) : bool := col_eq (status r) (Some "Accepted").
Definition fought_mask (r : Row) : bool := is_fought r.

(** [df["dashboard_status"] == s]. *)
Definition status_mask (s : option string) (r : Row) : bool :=
  col_eq (dashboard_status r) s.

Definition build_status_summary (df : DataFrame)
  : list (option string * StatusCell) :=
  map (fun s => (s, mkCell (mask_sum (status_mask s) df)
                           (sum_amount (filter (status_mask s) df))))
      STATUS_ORDER_init.

(** *** Time series *)

(** The [temp_month] column of [df_temp] for the date column [date_col]. *)
Definition temp_month (date_col : Row -> option Timestamp) (r : Row)
  : option Period :=
  option_map to_period (date_col r).

(** [df_temp] after [dropna(subset=["temp_month"])]: the rows that have a
    month, each with its month. *)
Definition df_temp (date_col : Row -> option Timestamp) (df : DataFrame)
  : list (Row * Period) :=
  dropna (map (fun r => option_map (pair r) (temp_month date_col r)) df).

Definition months_sorted (date_col : Row -> option Timestamp) (df : DataFrame)
  : list Period :=
  sort_by period_leb (unique period_eqb (map snd (df_temp date_col df))).

Definition month_status_mask (m : Period) (s : option string)
  (rm : Row * Period) : bool :=
  period_eqb (snd rm) m && status_mask s (fst rm).

Definition month_raw_status_mask (m : Period) (s : string)
  (rm : Row * Period) : bool :=
  period_eqb (snd rm) m && col_eq (status (fst rm)) (Some s).

Definition _get_time_series (date_col : Row -> option Timestamp)
  (df : DataFrame) : TimeSeries :=
  let t := df_temp date_col df in
  let months := months_sorted date_col df in
  mkSeries
    (map period_str months)
    (map (fun s =>
            (s, map (fun m => sum_amount (map fst (filter (month_status_mask m s) t)))
                    months))
         STATUS_ORDER_init)
    (map (fun s =>
            (s, map (fun m => mask_sum (month_status_mask m s) t) months))
         STATUS_ORDER_init)
    (map (fun m =>
            let lost_m := mask_sum (month_raw_status_mask m "Accepted") t in
            let won_m := mask_sum (month_raw_status_mask m "Won") t in
            let total_m := lost_m + won_m in
            if total_m =? 0 then 0%Q
            else py_round1 (Q_of_nat won_m / Q_of_nat total_m * 100)%Q)
         months).

(** *** Rankings *)

Definition key_mask (col : Row -> option string) (k : string) (r : Row) : bool :=
  col_eq (col r) (Some k).

(** The group keys of [df.groupby(col)]. *)
Definition group_keys (col : Row -> option string) (df : DataFrame) : list string :=
  sort_by String.leb (unique String.eqb (dropna (map col df))).

(** [df.groupby(col).agg(count=(col, "size"), total=("amount", "sum"))]:
    rows whose key is null form no group, and groups come in key order. *)
Definition groupby_agg (col : Row -> option string) (df : DataFrame)
  : list RankEntry :=
  map (fun k => mkEntry k (mask_sum (key_mask col k) df)
                        (sum_amount (filter (key_mask col k) df)))
      (group_keys col df).

(** Order of [sort_values("count", ascending=False)]. *)
Definition count_geb (a b : RankEntry) : bool := count b <=? count a.

(** [.sort_values("count", ascending=False).head(10).reset_index()]. *)
Definition top10 (col : Row -> option string) (df : DataFrame) : list RankEntry :=
  firstn 10 (sort_by count_geb (groupby_agg col df)).

(** *** Distributions *)

Definition map_cc_type (t : string) : string :=
  if contains "visa" t then "VISA"
  else if contains "mastercard" t || contains "master" t then "MasterCard"
  else if contains "amex" t || contains "american" t then "AMEX"
  else "Otro".

Definition count_geb_pair (a b : string * nat) : bool := snd b <=? snd a.

(** [Series.value_counts()]: one entry per distinct value, most frequent
    first. *)
Definition value_counts (l : list string) : list (string * nat) :=
  sort_by count_geb_pair
    (map (fun k => (k, mask_sum (String.eqb k) l)) (unique String.eqb l)).

Definition types_raw (df : DataFrame) : list string :=
  map (fun r : Row => lower (fillna (type r) "desconocido")) df.

Definition mapped_types (df : DataFrame) : list string :=
  map map_cc_type (types_raw df).

Definition cc_colors : list (string * string) :=
  [ ("VISA", "#1A1F71"); ("MasterCard", "#EB001B"); ("AMEX", "#002663");
    ("Otro", "#9E9E9E") ].

Definition country_raw (df : DataFrame) : list string :=
  map (fun r : Row => upper (fillna (country r) "Desconocido")) df.

(** Keep the first four countries and store the rest under ["OTRO"]. *)
Definition country_counts (df : DataFrame) : list (string * nat) :=
  let cc := value_counts (country_raw df) in
  if 4 <? length cc then
    let top_countries := firstn 4 cc in
    let otro_count := sum_nat (map snd (skipn 4 cc)) in
    series_set String.eqb top_countries "OTRO" otro_count
  else cc.

Definition palette : list string :=
  [ "#009FDD"; "#9C27B0"; "#4CAF50"; "#FF9800"; "#607D8B"; "#E57373" ].

(** *** The bundle *)

(** The columns the aggregator reads by name. *)
Definition col_payment_date (r : Row) : option Timestamp := payment_date r.
Definition col_chargeback_received_date (r : Row) : option Timestamp :=
  chargeback_received_date r.
Definition col_operator (r : Row) : option string := operator r.
Definition col_bank (r : Row) : option string := bank r.

Definition _aggregate_dashboard_metrics (df : DataFrame) : Metrics :=
  let won_count := mask_sum won_mask df in
  let lost_count := mask_sum lost_mask df in
  let success_rate := rate won_count lost_count in
  let status_summary := build_status_summary df in
  let type_counts := value_counts (mapped_types df) in
  let country_counts := country_counts df in
  mkMetrics
    (length df)
    (sum_amount df)
    (sum_amount (filter fought_mask df))
    (sum_amount (filter won_mask df))
    (sum_amount (filter lost_mask df))
    (mask_sum fought_mask df)
    lost_count
    won_count
    (py_round1 success_rate)
    status_summary
    (_get_time_series col_payment_date df)
    (_get_time_series col_chargeback_received_date df)
    (top10 col_operator df)
    (top10 col_operator (filter won_mask df))
    (top10 col_bank df)
    (top10 col_bank (filter won_mask df))
    (dropna (map (fun s => option_map label (dict_get status_key_eqb STATUS_CONFIG s))
                 STATUS_ORDER_init))
    (dropna (map (fun s => option_map cell_count
                             (dict_get status_key_eqb status_summary s))
                 STATUS_ORDER_init))
    (dropna (map (fun s => option_map color (dict_get status_key_eqb STATUS_CONFIG s))
                 STATUS_ORDER_init))
    (map fst type_counts)
    (map snd type_counts)
    (map (fun l => fillna (dict_get String.eqb cc_colors l) "#9E9E9E")
         (map fst type_counts))
    (map fst country_counts)
    (map snd country_counts)
    (firstn (length country_counts) palette).

(** ** [process_data]: the two bundles *)

Record Dashboard := mkDashboard { all_metrics : Metrics; fought_metrics : Metrics }.

Definition process_data (rows : list RawRow) : Dashboard :=
  let df := classify rows in
  let fought_df := filter (fun r : Row => is_fought r) df in
  mkDashboard (_aggregate_dashboard_metrics df)
              (_aggregate_dashboard_metrics fought_df).

(** ** Filter values of the cases table ([casos_filters])

    [df_display] is the frame with its text columns filled; a filled column
    has no null cell, so it is a column of strings, on which [dropna()] and
    [pd.notnull] change nothing.  Whitespace is ASCII whitespace. *)

(** [c.isspace()] on an ASCII character. *)
Definition is_space (c : ascii) : bool :=
  let n := nat_of_ascii c in
  ((9 <=? n) && (n <=? 13)) || ((28 <=? n) && (n <=? 32)).

Fixpoint lstrip (s : string) : string :=
  match s with
  | EmptyString => EmptyString
  | String c s' => if is_space c then lstrip s' else s
  end.

Fixpoint rstrip (s : string) : string :=
  match s with
  | EmptyString => EmptyString
  | String c s' =>
      let r := rstrip s' in
      if is_space c && String.eqb r "" then EmptyString else String c r
  end.

(** [s.strip()]. *)
Definition strip (s : string) : string := rstrip (lstrip s).

(** Truth value of a string: it is not empty. *)
Definition truthy (s : string) : bool := negb (String.eqb s "").

(** [s.capitalize()]. *)
Definition capitalize (s : string) : string :=
  match s with
  | EmptyString => EmptyString
  | String c s' => String (upper_ascii c) (lower s')
  end.

(** The filled text columns of one row of [df_display]. *)
Record DisplayRow := mkDisplay {
  d_operator : string;
  d_credit_card : string;
  d_type : string;
  d_bank : string;
  d_country : string;
  d_status : string
}.

Definition fill_display (r : Row) : DisplayRow :=
  mkDisplay (fillna (operator r) "") (fillna (credit_card r) "")
            (fillna (type r) "") (fillna (bank r) "") (fillna (country r) "")
            (fillna (status r) "N/A").

Definition df_display (df : DataFrame) : list DisplayRow := map fill_display df.

(** [s in STATUS_CONFIG] for a string [s]. *)
Definition in_STATUS_CONFIG (s : string) : bool :=
  negb (isna (dict_get status_key_eqb STATUS_CONFIG (Some s))).

(** The status a row adds to [stss]; both alternatives are the cell itself,
    the cell being filled. *)
Definition rendered_status (d : DisplayRow) : string :=
  if in_STATUS_CONFIG (d_status d) then d_status d else d_status d.

Record CasosFilters := mkFilters {
  operators : list string;
  types : list string;
  banks : list string;
  statuses : list string
}.

(** [[str(x) for x in col.dropna().unique() if str(x).strip()]]. *)
Definition nonblank_values (col : list string) : list string :=
  filter (fun x => truthy (strip x)) (unique String.eqb col).

(** [sorted(list(set(l)))]: the distinct elements in ascending order. *)
Definition sorted_set (l : list string) : list string :=
  sort_by String.leb (unique String.eqb l).

Definition casos_filters (df : DataFrame) : CasosFilters :=
  match df with
  | [] => mkFilters [] [] [] []
  | _ :: _ =>
      let disp := df_display df in
      let ops := nonblank_values (map d_operator disp) in
      let typs := map capitalize (nonblank_values (map d_type disp)) in
      let bnks := nonblank_values (map d_bank disp) in
      let stss := map rendered_status disp in
      mkFilters (sort_by String.leb ops) (sorted_set typs)
                (sort_by String.leb bnks) (sorted_set stss)
  end.

(** ** [_json]: cleaning a value before serialisation *)

(** A float is a finite number, a NaN or an infinity. *)
Inductive pyfloat :=
| Finite (q : Q)
| NaN
| PosInf
| NegInf.

Definition isnan (f : pyfloat) : bool :=
  match f with NaN => true | _ => false end.

Definition isinf (f : pyfloat) : bool :=
  match f with PosInf | NegInf => true | _ => false end.

(** The values [clean_obj] tells apart: floats, dicts and lists; every
    other value (here [None], booleans, integers, strings and tuples) is
    returned as it is. *)
#[local] Unset Elimination Schemes.
Inductive pyobj :=
| PNone
| PBool (b : bool)
| PInt (z : Z)
| PStr (s : string)
| PFloat (f : pyfloat)
| PTuple (l : list pyobj)
| PList (l : list pyobj)
| PDict (d : list (pyobj * pyobj)).
#[local] Set Elimination Schemes.

Fixpoint clean_obj (o : pyobj) : pyobj :=
  match o with
  | PFloat f => if isnan f || isinf f then PNone else PFloat f
  | PDict d => PDict (map (fun kv => (fst kv, clean_obj (snd kv))) d)
  | PList l => PList (map clean_obj l)
  | _ => o
  end.

(** ** [push_to_github] *)

(** What a [subprocess.run] call comes back with: the executable is
    missing, or the process completed with a return code and its output. *)
Inductive RunResult :=
| NotFound
| Completed (returncode : Z) (stdout stderr : string).

(** The outcome of each of the five calls, in the order they are made. *)
Record GitEnv := mkGitEnv {
  r_version : RunResult;
  r_status : RunResult;
  r_add : RunResult;
  r_commit : RunResult;
  r_push : RunResult
}.

Inductive Exn :=
| FileNotFoundError
| CalledProcessError (cmd : list string) (returncode : Z) (stdout stderr : string).

Inductive Msg :=
| MsgCommitting
| MsgNotARepository
| MsgPushing
| MsgPushed
| MsgGitNotFound
| MsgNoChanges
| MsgGitError (cmd : list string) (returncode : Z).

Inductive Event :=
| Run (cmd : list string)
| Print (m : Msg).

(** [subprocess.run(cmd, check=True, ...)]. *)
Definition run_checked (cmd : list string) (r : RunResult) : Exn + unit :=
  match r with
  | NotFound => inl FileNotFoundError
  | Completed rc out err =>
      if (rc =? 0)%Z then inr tt else inl (CalledProcessError cmd rc out err)
  end.

(** The two [except] clauses. *)
Definition on_exception (e : Exn) : list Event :=
  match e with
  | FileNotFoundError => [Print MsgGitNotFound]
  | CalledProcessError cmd rc out err =>
      if contains "nothing to commit" (lower out)
         || contains "nothing to commit" (lower err)
      then [Print MsgNoChanges]
      else [Print (MsgGitError cmd rc)]
  end.

Definition git_version : list string := ["git"; "--version"].
Definition git_status : list string := ["git"; "status"].
Definition git_add (file_path : string) : list string := ["git"; "add"; file_path].
Definition git_commit (now : string) : list string :=
  ["git"; "commit"; "-m"; "Auto-update: Dashboard generated " ++ now]%string.
Definition git_push : list string := ["git"; "push"].

(** The commands run and the messages printed, in order; [now] is the
    formatted current time. *)
Definition push_to_github (file_path now : string) (env : GitEnv) : list Event :=
  Print MsgCommitting :: Run git_version ::
  match run_checked git_version (r_version env) with
  | inl e => on_exception e
  | inr _ =>
      Run git_status ::
      match r_status env with
      | NotFound => on_exception FileNotFoundError
      | Completed _ _ err =>
          if contains "not a git repository" (lower err)
             || contains "not recognized" (lower err)
          then [Print MsgNotARepository]
          else
            Run (git_add file_path) ::
            match run_checked (git_add file_path) (r_add env) with
            | inl e => on_exception e
            | inr _ =>
                Run (git_commit now) ::
                match run_checked (git_commit now) (r_commit env) with
                | inl e => on_exception e
                | inr _ =>
                    Print MsgPushing :: Run git_push ::
                    match run_checked git_push (r_push env) with
                    | inl e => on_exception e
                    | inr _ => [Print MsgPushed]
                    end
                end
            end
      end
  end.

(** * Vocabulary of the properties and sample frames *)

(** A lost dispute, paid in January 2024, received in February and
    submitted in February; and the bundle of the frame that holds only it. *)
Definition lost_row : RawRow :=
  mkRaw 1 (50 # 1) (Some "telcel") None (Some "visa") (Some "BBVA") (Some "MX")
        (Some (mkTimestamp 2024 1 15 10 30)) (Some (mkTimestamp 2024 2 3 0 0))
        true (Some "Accepted") (Some (mkTimestamp 2024 2 10 0 0)) None.

Definition lost_only_metrics : Metrics :=
  all_metrics (process_data [lost_row]).

(** The raw statuses of a dispute sub-record. *)
Definition RAW_STATUSES : list string :=
  [ "Won"; "Accepted"; "Documents submitted"; "Active" ].

Definition in_enumeration (r : RawRow) : Prop :=
  match status r with
  | Some s => In s RAW_STATUSES
  | None => True
  end.

(** The statuses of [STATUS_ORDER[:-1]] whose mask selects the row. *)
Definition buckets_of (r : Row) : list (option string) :=
  filter (fun s => status_mask s r) STATUS_ORDER_init.

Definition status_counts (m : Metrics) : list nat :=
  map (fun c => cell_count (snd c)) (status_summary m).

Definition status_amounts (m : Metrics) : list Q :=
  map (fun c => cell_amount (snd c)) (status_summary m).

(** Two rows without raw status, one fought and one not. *)
Definition unknown_fought_row : RawRow :=
  mkRaw 7 (120 # 1) (Some "movistar") None None None None
        (Some (mkTimestamp 2024 3 2 9 0)) None true None
        (Some (mkTimestamp 2024 3 20 0 0)) None.

Definition unknown_plain_row : RawRow :=
  mkRaw 8 (75 # 2) None None (Some "MASTERCARD") (Some "Banorte") (Some "mx")
        (Some (mkTimestamp 2024 4 2 9 0)) None false None None None.

(** The mask [temp_month == m] read on the frame before [dropna]. *)
Definition in_month (date_col : Row -> option Timestamp) (m : Period) (r : Row)
  : bool :=
  match temp_month date_col r with
  | Some m' => period_eqb m' m
  | None => false
  end.

(** The date the classifier attaches to a record: the submission date when
    there is one, the payment date otherwise. *)
Definition representative_date (r : RawRow) : option Timestamp :=
  match submission_date r with
  | Some d => Some d
  | None => payment_date r
  end.

(** C2 as stated: a row that enters the series of [date_col] enters it in
    the month of its representative date. *)
Definition bucketed_by_representative_date
  (date_col : Row -> option Timestamp) (df : DataFrame) : Prop :=
  forall (r : Row) (m : Period),
    In r df -> temp_month date_col r = Some m ->
    option_map to_period (representative_date r) = Some m.

(** What the source does: the series of [date_col] has one label per month of
    [date_col], and its entry for a status and a month aggregates the rows
    whose [date_col] falls in that month. *)
Definition bucketed_by_date_col
  (date_col : Row -> option Timestamp) (ts : TimeSeries) (df : DataFrame) : Prop :=
  month_labels ts = map period_str (months_sorted date_col df) /\
  (forall m, In m (months_sorted date_col df)
             <-> exists r, In r df /\ option_map to_period (date_col r) = Some m) /\
  (forall s, In s STATUS_ORDER_init ->
     dict_get status_key_eqb (count_by_status ts) s
     = Some (map (fun m => mask_sum (fun r => in_month date_col m r && status_mask s r) df)
                 (months_sorted date_col df)) /\
     dict_get status_key_eqb (by_status ts) s
     = Some (map (fun m => sum_amount
                             (filter (fun r => in_month date_col m r && status_mask s r) df))
                 (months_sorted date_col df))).

Definition Period_eq_dec (a b : Period) : {a = b} + {a <> b}.
Proof. decide equality; apply Nat.eq_dec. Defined.

(** The number of distinct months of [date_col] among the rows that have one. *)
Definition distinct_months (date_col : Row -> option Timestamp) (df : DataFrame)
  : nat :=
  length (nodup Period_eq_dec (dropna (map (temp_month date_col) df))).

(** The dense-matrix property of one series. *)
Definition dense (date_col : Row -> option Timestamp) (ts : TimeSeries)
  (df : DataFrame) : Prop :=
  forall s, In s STATUS_ORDER_init ->
    exists (amounts : list Q) (counts : list nat),
      dict_get status_key_eqb (by_status ts) s = Some amounts /\
      dict_get status_key_eqb (count_by_status ts) s = Some counts /\
      length amounts = distinct_months date_col df /\
      length counts = distinct_months date_col df /\
      forall (i : nat) (m : Period),
        nth_error (months_sorted date_col df) i = Some m ->
        (forall r, In r df -> temp_month date_col r = Some m ->
                   dashboard_status r <> s) ->
        nth_error amounts i = Some 0%Q /\ nth_error counts i = Some 0.

(** Non-increasing counts, and the shape of a ranking table. *)
Definition count_ge (a b : RankEntry) : Prop := count b <= count a.

Definition ranking_ok (t : list RankEntry) : Prop :=
  length t <= 10 /\ StronglySorted count_ge t.

(** [status == s] on the raw status column. *)
Definition raw_status_is (s : string) (r : Row) : bool :=
  match status r with
  | Some x => String.eqb x s
  | None => false
  end.

(** What an entry of a won-only table aggregates: the rows of the frame with
    [status == "Won"] and the entry's key in column [col]. *)
Definition won_only (col : Row -> option string) (t : list RankEntry)
  (df : DataFrame) : Prop :=
  forall e, In e t ->
    let won_with_key := fun r : Row =>
      raw_status_is "Won" r && key_mask col (key e) r in
    count e = mask_sum won_with_key df /\
    total e = sum_amount (filter won_with_key df) /\
    0 < count e.

(** What it means for the table [t] over column [col] of [df] to leave out
    the rows whose [col] is null. *)
Definition excludes_null (col : Row -> option string) (t : list RankEntry)
  (df : DataFrame) : Prop :=
  (forall e, In e t ->
     (exists r, In r df /\ col r = Some (key e)) /\
     count e = mask_sum (key_mask col (key e)) df /\
     total e = sum_amount (filter (key_mask col (key e)) df)) /\
  (forall e r, In e t -> col r = None -> key_mask col (key e) r = false) /\
  sum_nat (map count t) <= mask_sum (fun r => negb (isna (col r))) df /\
  (length (group_keys col df) <= 10 ->
   sum_nat (map count t) = mask_sum (fun r => negb (isna (col r))) df).

(** The class of one record. *)
Definition cc_class (r : Row) : string :=
  map_cc_type (lower (fillna (type r) "desconocido")).

Definition type_row (t : option string) : RawRow :=
  mkRaw 1 (10 # 1) None None t None None None None false None None None.

(** The scenario of five card types. *)
Definition five_types : list RawRow :=
  [ type_row (Some "Visa"); type_row (Some "MASTERCARD");
    type_row (Some "amex debit"); type_row (Some "discover"); type_row None ].

(** The type distribution as label/count pairs. *)
Definition type_distribution (m : Metrics) : list (string * nat) :=
  combine (type_donut_labels m) (type_donut_values m).

Definition country_row (c : option string) : RawRow :=
  mkRaw 1 (10 # 1) None None None None c None None false None None None.

(** Six countries with 10, 8, 6, 4, 2 and 1 records. *)
Definition six_countries : list RawRow :=
  map country_row
    (repeat (Some "mx") 10 ++ repeat (Some "us") 8 ++ repeat (Some "br") 6
     ++ repeat (Some "ar") 4 ++ repeat (Some "co") 2 ++ repeat (Some "cl") 1).

(** Six records of five countries, one of which is called "Otro". *)
Definition otro_rows : list RawRow :=
  map country_row
    [ Some "Otro"; Some "otro"; Some "MX"; Some "US"; Some "BR"; Some "AR" ].

(** The row's [dashboard_status] is one of the six enumerated statuses. *)
Definition listed (r : Row) : bool :=
  existsb (fun s => status_mask s r) STATUS_ORDER_init.

(** The raw status is present and is none of the six enumerated names. *)
Definition unlisted_raw (r : RawRow) : bool :=
  match status r with
  | Some s => negb (existsb (fun k => status_key_eqb k (Some s)) STATUS_ORDER_init)
  | None => false
  end.

(** The row has a date in column [date_col]. *)
Definition dated (date_col : Row -> option Timestamp) (r : Row) : bool :=
  negb (isna (date_col r)).

(** Chronological order of months. *)
Definition period_lt (a b : Period) : Prop :=
  p_year a < p_year b \/ (p_year a = p_year b /\ p_month a < p_month b).

(** The four class labels of the card-type distribution. *)
Definition CC_CLASSES : list string := ["VISA"; "MasterCard"; "AMEX"; "Otro"].

(** Strictly ascending order of strings. *)
Definition string_lt (a b : string) : Prop := String.ltb a b = true.

(** The frame of the fought rows, as [process_data] selects it. *)
Definition fought_df (df : DataFrame) : DataFrame :=
  filter (fun r : Row => is_fought r) df.


(** No NaN and no infinity is reachable through the lists and the dict
    values of the object; tuples and dict keys are not looked into. *)
Fixpoint json_safe (o : pyobj) : bool :=
  match o with
  | PFloat f => negb (isnan f || isinf f)
  | PList l => forallb json_safe l
  | PDict d => forallb (fun kv => json_safe (snd kv)) d
  | _ => true
  end.

(** The call completed with return code 0. *)
Definition succeeded (r : RunResult) : bool :=
  match r with
  | Completed rc _ _ => (rc =? 0)%Z
  | NotFound => false
  end.

(** [git status] ran and its error output names neither of the two
    complaints the function looks for. *)
Definition repository_found (r : RunResult) : bool :=
  match r with
  | Completed _ _ err =>
      negb (contains "not a git repository" (lower err)
            || contains "not recognized" (lower err))
  | NotFound => false
  end.

(** The output of a failed call says there is nothing to commit. *)
Definition says_nothing_to_commit (r : RunResult) : bool :=
  match r with
  | Completed _ out err =>
      contains "nothing to commit" (lower out)
      || contains "nothing to commit" (lower err)
  | NotFound => false
  end.

(** The commands of a trace, in the order they were run. *)
Fixpoint commands (t : list Event) : list (list string) :=
  match t with
  | [] => []
  | Run cmd :: t' => cmd :: commands t'
  | Print _ :: t' => commands t'
  end.

(** The messages of a trace, in the order they were printed. *)
Fixpoint messages (t : list Event) : list Msg :=
  match t with
  | [] => []
  | Run _ :: t' => messages t'
  | Print m :: t' => m :: messages t'
  end.

(** The five commands in the order the function issues them. *)
Definition git_commands (file_path now : string) : list (list string) :=
  [git_version; git_status; git_add file_path; git_commit now; git_push].

(** * Properties *)

(** ** Sorting, distinct values and counting *)

Section SortFacts.
Context {A : Type} (leb : A -> A -> bool).

Lemma insert_by_perm (x : A) (l : list A) :
  Permutation (insert_by leb x l) (x :: l).
Proof.
  induction l as [|y l IH]; simpl.
  - apply Permutation_refl.
  - destruct (leb x y).
    + apply Permutation_refl.
    + eapply perm_trans; [apply perm_skip, IH | apply perm_swap].
Qed.

Lemma sort_by_perm (l : list A) : Permutation (sort_by leb l) l.
Proof.
  induction l as [|x l IH]; simpl.
  - constructor.
  - eapply perm_trans; [apply insert_by_perm | now apply perm_skip].
Qed.

Lemma sort_by_length (l : list A) : length (sort_by leb l) = length l.
Proof. apply Permutation_length, sort_by_perm. Qed.

Lemma sort_by_In (x : A) (l : list A) : In x (sort_by leb l) <-> In x l.
Proof.
  split; apply Permutation_in;
    [apply sort_by_perm | apply Permutation_sym, sort_by_perm].
Qed.

Lemma sort_by_NoDup (l : list A) : NoDup l -> NoDup (sort_by leb l).
Proof.
  apply Permutation_NoDup, Permutation_sym, sort_by_perm.
Qed.

Hypothesis leb_total : forall a b, leb a b = true \/ leb b a = true.

Let R (a b : A) : Prop := leb a b = true.

Lemma insert_by_hdrel (a x : A) (l : list A) :
  R a x -> HdRel R a l -> HdRel R a (insert_by leb x l).
Proof.
  intros Hax Hl.
  destruct l as [|y l]; simpl.
  - now constructor.
  - destruct (leb x y); constructor; auto.
    now inversion Hl.
Qed.

Lemma insert_by_sorted (x : A) (l : list A) :
  Sorted R l -> Sorted R (insert_by leb x l).
Proof.
  induction 1 as [|y l Hs IH Hhd]; simpl.
  - repeat constructor.
  - destruct (leb x y) eqn:E.
    + constructor; [now constructor | now constructor].
    + constructor; [exact IH |].
      apply insert_by_hdrel; [|exact Hhd].
      destruct (leb_total x y) as [H|H]; [congruence | exact H].
Qed.

Lemma sort_by_sorted (l : list A) :
  Sorted (fun a b => leb a b = true) (sort_by leb l).
Proof.
  induction l as [|x l IH]; simpl.
  - constructor.
  - now apply insert_by_sorted.
Qed.
End SortFacts.

Lemma Sorted_firstn {A : Type} (R : A -> A -> Prop) (n : nat) (l : list A) :
  Sorted R l -> Sorted R (firstn n l).
Proof.
  intros H; revert n.
  induction H as [|x l Hs IH Hhd]; intros [|n]; simpl; try constructor.
  - apply IH.
  - destruct Hhd; destruct n; simpl; constructor; assumption.
Qed.

Lemma filter_none {A : Type} (f : A -> bool) (l : list A) :
  (forall x, In x l -> f x = false) -> filter f l = [].
Proof.
  induction l as [|y l IH]; simpl; intros H; [reflexivity|].
  rewrite (H y (or_introl eq_refl)).
  apply IH. intros x Hx. apply H. now right.
Qed.

Section UniqueFacts.
Context {A : Type} (eqb : A -> A -> bool).
Hypothesis eqb_spec : forall a b, eqb a b = true <-> a = b.

Lemma unique_In (x : A) (l : list A) : In x (unique eqb l) <-> In x l.
Proof.
  induction l as [|y l IH]; simpl; [tauto|].
  rewrite filter_In, IH.
  split.
  - intros [H|[H _]]; auto.
  - intros [H|H]; auto.
    destruct (eqb y x) eqn:E.
    + left. now apply eqb_spec.
    + right. now split.
Qed.

Lemma unique_NoDup (l : list A) : NoDup (unique eqb l).
Proof.
  induction l as [|y l IH]; simpl; constructor.
  - rewrite filter_In. intros [_ H].
    assert (E : eqb y y = true) by now apply eqb_spec.
    now rewrite E in H.
  - now apply NoDup_filter.
Qed.

(** In a duplicate-free list exactly one element equals a member. *)
Lemma NoDup_mask_sum_eqb (x : A) (u : list A) :
  NoDup u -> In x u -> mask_sum (fun k => eqb k x) u = 1.
Proof.
  unfold mask_sum.
  induction 1 as [|y u Hy Hu IH]; simpl; [tauto|].
  intros [->|Hin].
  - assert (E : eqb x x = true) by now apply eqb_spec.
    rewrite E; simpl. f_equal.
    assert (F : filter (fun k => eqb k x) u = []); [|now rewrite F].
    apply filter_none. intros k Hk.
    destruct (eqb k x) eqn:E'; [|reflexivity].
    apply eqb_spec in E'. now subst.
  - destruct (eqb y x) eqn:E.
    + apply eqb_spec in E. now subst.
    + now apply IH.
Qed.
End UniqueFacts.

(** ** Sums over rows and over groups *)

Lemma sum_nat_app (l1 l2 : list nat) :
  sum_nat (l1 ++ l2) = sum_nat l1 + sum_nat l2.
Proof. induction l1; simpl; lia. Qed.

Lemma sum_nat_perm (l1 l2 : list nat) :
  Permutation l1 l2 -> sum_nat l1 = sum_nat l2.
Proof. induction 1; simpl; lia. Qed.

Lemma sum_nat_map_add {A : Type} (f g : A -> nat) (u : list A) :
  sum_nat (map (fun k => f k + g k) u) = sum_nat (map f u) + sum_nat (map g u).
Proof. induction u; simpl; lia. Qed.

Lemma sum_nat_firstn_le (n : nat) (l : list nat) :
  sum_nat (firstn n l) <= sum_nat l.
Proof.
  rewrite <- (firstn_skipn n l) at 2. rewrite sum_nat_app. lia.
Qed.

Lemma mask_sum_cons {A : Type} (p : A -> bool) (x : A) (l : list A) :
  mask_sum p (x :: l) = (if p x then 1 else 0) + mask_sum p l.
Proof. unfold mask_sum; simpl. now destruct (p x). Qed.

Lemma mask_sum_indicator {A : Type} (p : A -> bool) (u : list A) :
  mask_sum p u = sum_nat (map (fun k => if p k then 1 else 0) u).
Proof.
  induction u as [|k u IH]; [reflexivity|].
  rewrite mask_sum_cons, IH. reflexivity.
Qed.

(** Counting group by group is counting row by row. *)
Lemma count_swap {K A : Type} (p : K -> A -> bool) (u : list K) (l : list A) :
  sum_nat (map (fun k => mask_sum (p k) l) u)
  = sum_nat (map (fun r => mask_sum (fun k => p k r) u) l).
Proof.
  induction l as [|r l IH]; simpl.
  - induction u; simpl; auto.
  - rewrite <- IH, mask_sum_indicator, <- sum_nat_map_add.
    f_equal. apply map_ext. intros k. apply mask_sum_cons.
Qed.

(** When every row falls into exactly one group, the group counts add up
    to the number of rows. *)
Lemma count_partition {K A : Type} (p : K -> A -> bool) (u : list K) (l : list A) :
  (forall r, In r l -> mask_sum (fun k => p k r) u = 1) ->
  sum_nat (map (fun k => mask_sum (p k) l) u) = length l.
Proof.
  intros H. rewrite count_swap.
  induction l as [|r l IH]; simpl; [reflexivity|].
  rewrite (H r (or_introl eq_refl)), IH; [reflexivity|].
  intros r' Hr'. apply H. now right.
Qed.

Lemma sum_Q_map_ext {A : Type} (f g : A -> Q) (u : list A) :
  (forall k, In k u -> (f k == g k)%Q) ->
  (sum_Q (map f u) == sum_Q (map g u))%Q.
Proof.
  induction u as [|k u IH]; simpl; intros H; [reflexivity|].
  rewrite (H k (or_introl eq_refl)), IH; [reflexivity|].
  intros k' Hk'. apply H. now right.
Qed.

Lemma sum_Q_map_add {A : Type} (f g : A -> Q) (u : list A) :
  (sum_Q (map (fun k => f k + g k) u) == sum_Q (map f u) + sum_Q (map g u))%Q.
Proof.
  induction u as [|k u IH]; simpl; [reflexivity|].
  rewrite IH. ring.
Qed.

Lemma sum_Q_indicator {A : Type} (q : A -> bool) (a : Q) (u : list A) :
  (sum_Q (map (fun k => if q k then a else 0) u) == Q_of_nat (mask_sum q u) * a)%Q.
Proof.
  induction u as [|k u IH].
  - simpl. unfold Q_of_nat, mask_sum; simpl. ring.
  - simpl. rewrite IH, mask_sum_cons. unfold Q_of_nat.
    rewrite Nat2Z.inj_add, inject_Z_plus.
    destruct (q k); simpl; ring.
Qed.

Lemma sum_amount_filter_cons (p : Row -> bool) (r : Row) (df : DataFrame) :
  (sum_amount (filter p (r :: df))
   == (if p r then amount r else 0) + sum_amount (filter p df))%Q.
Proof.
  unfold sum_amount; simpl. destruct (p r); simpl; ring.
Qed.

(** When every row falls into exactly one group, the group amounts add up
    to the amount of the frame. *)
Lemma amount_partition {K : Type} (p : K -> Row -> bool) (u : list K)
  (df : DataFrame) :
  (forall r, In r df -> mask_sum (fun k => p k r) u = 1) ->
  (sum_Q (map (fun k => sum_amount (filter (p k) df)) u) == sum_amount df)%Q.
Proof.
  induction df as [|r df IH]; intros H.
  - clear H. simpl. induction u as [|k u IHu]; simpl; [reflexivity|].
    rewrite IHu. unfold sum_amount; simpl. ring.
  - rewrite (sum_Q_map_ext _
      (fun k => (if p k r then amount r else 0) + sum_amount (filter (p k) df))%Q).
    + rewrite sum_Q_map_add, sum_Q_indicator, IH.
      * rewrite (H r (or_introl eq_refl)).
        unfold sum_amount, Q_of_nat; simpl. ring.
      * intros r' Hr'. apply H. now right.
    + intros k _. apply sum_amount_filter_cons.
Qed.

Lemma filter_filter {A : Type} (p q : A -> bool) (l : list A) :
  filter p (filter q l) = filter (fun x => q x && p x) l.
Proof.
  induction l as [|x l IH]; simpl; [reflexivity|].
  destruct (q x); simpl; [destruct (p x)|]; now rewrite IH.
Qed.

Lemma filter_all {A : Type} (p : A -> bool) (l : list A) :
  filter p (filter p l) = filter p l.
Proof.
  apply forallb_filter_id, forallb_filter.
Qed.

Lemma string_eqb_spec (a b : string) : String.eqb a b = true <-> a = b.
Proof. apply String.eqb_eq. Qed.

Lemma period_eqb_spec (a b : Period) : period_eqb a b = true <-> a = b.
Proof.
  destruct a as [ya ma], b as [yb mb]; unfold period_eqb; simpl.
  rewrite andb_true_iff, !Nat.eqb_eq.
  split; [intros [-> ->]; reflexivity | intros [= -> ->]; auto].
Qed.

Lemma period_leb_total (a b : Period) :
  period_leb a b = true \/ period_leb b a = true.
Proof.
  destruct a as [ya ma], b as [yb mb]; unfold period_leb; simpl.
  rewrite !orb_true_iff, !andb_true_iff, !Nat.ltb_lt, !Nat.eqb_eq, !Nat.leb_le.
  lia.
Qed.

Lemma count_geb_total (a b : RankEntry) :
  count_geb a b = true \/ count_geb b a = true.
Proof. unfold count_geb. rewrite !Nat.leb_le. lia. Qed.

(** ** Success rate *)

Lemma round_half_even_comp (x y : Q) :
  (x == y)%Q -> round_half_even x = round_half_even y.
Proof.
  intros E. unfold round_half_even.
  rewrite (Qfloor_comp _ _ E).
  assert (C : ((x - inject_Z (Qfloor y)) ?= (1 # 2))%Q
              = ((y - inject_Z (Qfloor y)) ?= (1 # 2))%Q).
  { apply Qcompare_comp; [now rewrite E | reflexivity]. }
  now rewrite C.
Qed.

Lemma round_half_even_range (x : Q) (a b : Z) :
  (inject_Z a <= x)%Q -> (x <= inject_Z b)%Q ->
  (a <= round_half_even x <= b)%Z.
Proof.
  intros Ha Hb.
  assert (Fa : (a <= Qfloor x)%Z).
  { rewrite <- (Qfloor_Z a). now apply Qfloor_resp_le. }
  assert (Fb : (Qfloor x <= b)%Z).
  { rewrite <- (Qfloor_Z b). now apply Qfloor_resp_le. }
  unfold round_half_even.
  destruct (Z.eq_dec (Qfloor x) b) as [E|N].
  - assert (L : ((x - inject_Z (Qfloor x)) ?= (1 # 2))%Q = Lt).
    { apply Qlt_alt. rewrite E.
      apply Qle_lt_trans with (y := 0%Q); [|reflexivity].
      apply (Qplus_le_l _ _ (inject_Z b)). ring_simplify. exact Hb. }
    rewrite L. lia.
  - destruct (_ ?= _)%Q; [destruct (Z.even _)| |]; lia.
Qed.

Lemma py_round1_range (x : Q) :
  (0 <= x)%Q -> (x <= 100)%Q -> (0 <= py_round1 x)%Q /\ (py_round1 x <= 100)%Q.
Proof.
  intros H0 H100.
  destruct (round_half_even_range (x * 10) 0 1000) as [L U].
  - change (inject_Z 0) with (0 * 10)%Q. now apply Qmult_le_compat_r.
  - change (inject_Z 1000) with (100 * 10)%Q. now apply Qmult_le_compat_r.
  - unfold py_round1, Qle; simpl. lia.
Qed.

Lemma rate_range (won lost : nat) :
  (0 <= rate won lost)%Q /\ (rate won lost <= 100)%Q.
Proof.
  unfold rate. destruct (won + lost =? 0) eqn:E.
  - split; discriminate.
  - apply Nat.eqb_neq in E. unfold Q_of_nat.
    destruct (Z.of_nat (won + lost)) as [|p|p] eqn:D; try lia.
    assert (W : (Z.of_nat won <= Z.pos p)%Z) by lia.
    assert (W0 : (0 <= Z.of_nat won)%Z) by lia.
    unfold Qle, Qdiv, Qmult, Qinv, inject_Z; simpl.
    split; nia.
Qed.

Lemma rate_no_win (lost : nat) : (rate 0 lost == 0)%Q.
Proof.
  unfold rate. destruct (0 + lost =? 0); [reflexivity|].
  unfold Q_of_nat, Qdiv; simpl. ring.
Qed.

(** C1, as stated, fails: with one lost dispute and none won the success rate
    is 0 although [won_count + lost_count] is 1. *)
Lemma success_rate_zero_with_losses :
  ~ ((success_rate lost_only_metrics == 0)%Q
     <-> won_count lost_only_metrics + lost_count lost_only_metrics = 0).
Proof.
  intros [H _].
  assert (Z : (success_rate lost_only_metrics == 0)%Q) by (vm_compute; reflexivity).
  specialize (H Z). vm_compute in H. discriminate.
Qed.

(** C1, amended: for every frame the success rate is
    [round(won / (won + lost) * 100, 1)] when [won + lost > 0] and 0 when
    [won + lost = 0]; it lies in [0, 100]; and it is 0 whenever no dispute
    was won (so in particular when the denominator is 0, but not only then). *)
Theorem success_rate_spec (df : DataFrame) :
  let m := _aggregate_dashboard_metrics df in
  let won := won_count m in
  let lost := lost_count m in
  (0 < won + lost ->
   success_rate m = py_round1 (Q_of_nat won / Q_of_nat (won + lost) * 100)%Q) /\
  (won + lost = 0 -> (success_rate m == 0)%Q) /\
  ((0 <= success_rate m)%Q /\ (success_rate m <= 100)%Q) /\
  (won = 0 -> (success_rate m == 0)%Q).
Proof.
  simpl. repeat split.
  - intros H. unfold rate.
    destruct (_ =? 0) eqn:E; [apply Nat.eqb_eq in E; lia | reflexivity].
  - intros H. unfold rate. rewrite H. reflexivity.
  - apply py_round1_range; apply rate_range.
  - apply py_round1_range; apply rate_range.
  - intros H. rewrite H.
    unfold py_round1. rewrite (round_half_even_comp _ (0 * 10)%Q).
    + reflexivity.
    + rewrite rate_no_win. reflexivity.
Qed.

Lemma success_rate_spec_witness :
  let m := _aggregate_dashboard_metrics (classify [lost_row]) in
  0 < won_count m + lost_count m /\
  success_rate m = py_round1 (Q_of_nat (won_count m)
                              / Q_of_nat (won_count m + lost_count m) * 100)%Q.
Proof.
  split.
  - vm_compute. lia.
  - apply (success_rate_spec (classify [lost_row])). vm_compute. lia.
Defined.

(** ** Status summary *)

Lemma one_bucket (r : RawRow) :
  in_enumeration r ->
  exists s, buckets_of (add_columns r) = [s].
Proof.
  destruct r as [u a o c t b co pd cd f [s|] sd rd]; unfold in_enumeration; simpl.
  - intros [<-|[<-|[<-|[<-|[]]]]]; eexists; reflexivity.
  - intros _. destruct f; eexists; reflexivity.
Qed.

Lemma classified_one_bucket (rows : list RawRow) :
  Forall in_enumeration rows ->
  forall r, In r (classify rows) ->
       mask_sum (fun s => status_mask s r) STATUS_ORDER_init = 1.
Proof.
  intros H r Hr. apply in_map_iff in Hr as [r0 [<- Hr0]].
  rewrite Forall_forall in H.
  destruct (one_bucket r0 (H r0 Hr0)) as [s Hs].
  unfold mask_sum. unfold buckets_of in Hs. now rewrite Hs.
Qed.

Lemma status_counts_eq (df : DataFrame) :
  status_counts (_aggregate_dashboard_metrics df)
  = map (fun s => mask_sum (status_mask s) df) STATUS_ORDER_init.
Proof.
  unfold status_counts; cbv [status_summary _aggregate_dashboard_metrics].
  unfold build_status_summary. rewrite map_map. reflexivity.
Qed.

Lemma status_amounts_eq (df : DataFrame) :
  status_amounts (_aggregate_dashboard_metrics df)
  = map (fun s => sum_amount (filter (status_mask s) df)) STATUS_ORDER_init.
Proof.
  unfold status_amounts; cbv [status_summary _aggregate_dashboard_metrics].
  unfold build_status_summary. rewrite map_map. reflexivity.
Qed.

(** C3: when every raw status is absent or one of Won, Accepted, Documents
    submitted, Active, the six counts of [status_summary] add up to
    [total_records], in the bundle of all rows and in the bundle of fought
    rows (empty frames included); the summary has exactly the six statuses
    of [STATUS_ORDER[:-1]] as keys; every row is selected by exactly one of
    them; and a row without raw status goes to "N/A (fought)" when it is
    fought and to "N/A (non-fought)" when it is not. *)
Theorem status_counts_sum_to_total (rows : list RawRow) :
  Forall in_enumeration rows ->
  let d := process_data rows in
  sum_nat (status_counts (all_metrics d)) = total_records (all_metrics d) /\
  sum_nat (status_counts (fought_metrics d)) = total_records (fought_metrics d) /\
  map fst (status_summary (all_metrics d)) = STATUS_ORDER_init /\
  length STATUS_ORDER_init = 6 /\
  (forall r, In r rows -> exists s, buckets_of (add_columns r) = [s]) /\
  (forall r, In r rows -> status r = None ->
        dashboard_status (add_columns r)
        = Some (if is_fought r then "N/A (fought)" else "N/A (non-fought)")).
Proof.
  intros H d.
  pose proof (classified_one_bucket rows H) as Hone.
  repeat split.
  - unfold d, process_data; cbv [all_metrics].
    rewrite status_counts_eq. apply count_partition. exact Hone.
  - unfold d, process_data; cbv [fought_metrics].
    rewrite status_counts_eq. apply count_partition.
    intros r Hr. apply filter_In in Hr as [Hr _]. now apply Hone.
  - intros r Hr. rewrite Forall_forall in H. now apply one_bucket, H.
  - intros r _ Hs. unfold add_columns; simpl. rewrite Hs; simpl.
    now destruct (is_fought r).
Qed.

Lemma sample_rows_in_enumeration :
  Forall in_enumeration [lost_row; unknown_fought_row; unknown_plain_row].
Proof.
  repeat (apply Forall_cons; [unfold in_enumeration; simpl; tauto|]).
  apply Forall_nil.
Defined.

Lemma status_counts_sum_to_total_witness :
  let d := process_data [lost_row; unknown_fought_row; unknown_plain_row] in
  sum_nat (status_counts (all_metrics d)) = 3 /\
  total_records (all_metrics d) = 3.
Proof.
  pose proof (status_counts_sum_to_total
                [lost_row; unknown_fought_row; unknown_plain_row]
                sample_rows_in_enumeration) as [H _].
  split; [rewrite H|]; reflexivity.
Defined.

(** C10: under the same condition on raw statuses the six amounts of
    [status_summary] add up to [total_amount] (exact arithmetic), in both
    bundles. *)
Theorem status_amounts_sum_to_total (rows : list RawRow) :
  Forall in_enumeration rows ->
  let d := process_data rows in
  (sum_Q (status_amounts (all_metrics d)) == total_amount (all_metrics d))%Q /\
  (sum_Q (status_amounts (fought_metrics d))
   == total_amount (fought_metrics d))%Q.
Proof.
  intros H d.
  pose proof (classified_one_bucket rows H) as Hone.
  split.
  - unfold d, process_data; cbv [all_metrics].
    rewrite status_amounts_eq. apply amount_partition. exact Hone.
  - unfold d, process_data; cbv [fought_metrics].
    rewrite status_amounts_eq. apply amount_partition.
    intros r Hr. apply filter_In in Hr as [Hr _]. now apply Hone.
Qed.

Lemma status_amounts_sum_to_total_witness :
  let d := process_data [lost_row; unknown_fought_row; unknown_plain_row] in
  (sum_Q (status_amounts (all_metrics d)) == 415 # 2)%Q.
Proof.
  pose proof (status_amounts_sum_to_total
                [lost_row; unknown_fought_row; unknown_plain_row]
                sample_rows_in_enumeration) as [H _].
  cbv zeta in H |- *. rewrite H. vm_compute. reflexivity.
Defined.

(** ** The fought bundle *)

(** C8: in the bundle computed from the fought rows, [fought_count] is
    [total_records] and [fought_amount] is [total_amount]. *)
Theorem fought_bundle_all_fought (rows : list RawRow) :
  let m := fought_metrics (process_data rows) in
  fought_count m = total_records m /\ fought_amount m = total_amount m.
Proof.
  cbv [process_data fought_metrics _aggregate_dashboard_metrics
       fought_count total_records fought_amount total_amount mask_sum].
  change fought_mask with (fun r : Row => is_fought r).
  rewrite filter_all. split; reflexivity.
Qed.

(** ** Time series *)

Lemma dropna_In {A : Type} (x : A) (l : list (option A)) :
  In x (dropna l) <-> In (Some x) l.
Proof.
  induction l as [|[y|] l IH]; simpl.
  - tauto.
  - rewrite IH. split; intros [H|H]; auto; left; congruence.
  - rewrite IH. split; [auto | intros [H|H]; [discriminate | auto]].
Qed.

Lemma df_temp_months (date_col : Row -> option Timestamp) (df : DataFrame) :
  map snd (df_temp date_col df) = dropna (map (temp_month date_col) df).
Proof.
  unfold df_temp.
  induction df as [|r df IH]; simpl; [reflexivity|].
  destruct (temp_month date_col r); simpl; now rewrite IH.
Qed.

Lemma df_temp_In (date_col : Row -> option Timestamp) (df : DataFrame)
  (r : Row) (m : Period) :
  In (r, m) (df_temp date_col df) <-> In r df /\ temp_month date_col r = Some m.
Proof.
  unfold df_temp. rewrite dropna_In, in_map_iff. split.
  - intros [r' [E Hr']].
    destruct (temp_month date_col r') eqn:T; simpl in E; [|discriminate].
    injection E as -> ->. auto.
  - intros [Hr T]. exists r. rewrite T. auto.
Qed.

Lemma df_temp_filter (date_col : Row -> option Timestamp) (df : DataFrame)
  (m : Period) (q : Row -> bool) :
  map fst (filter (fun rm => period_eqb (snd rm) m && q (fst rm))
                  (df_temp date_col df))
  = filter (fun r => in_month date_col m r && q r) df.
Proof.
  unfold df_temp, in_month.
  induction df as [|r df IH]; simpl; [reflexivity|].
  destruct (temp_month date_col r) as [m'|]; simpl; [|exact IH].
  destruct (period_eqb m' m && q r); simpl; now rewrite IH.
Qed.

Lemma df_temp_mask_sum (date_col : Row -> option Timestamp) (df : DataFrame)
  (m : Period) (q : Row -> bool) :
  mask_sum (fun rm => period_eqb (snd rm) m && q (fst rm)) (df_temp date_col df)
  = mask_sum (fun r => in_month date_col m r && q r) df.
Proof.
  unfold mask_sum. rewrite <- df_temp_filter. now rewrite length_map.
Qed.

Lemma months_sorted_In (date_col : Row -> option Timestamp) (df : DataFrame)
  (m : Period) :
  In m (months_sorted date_col df)
  <-> exists r, In r df /\ option_map to_period (date_col r) = Some m.
Proof.
  unfold months_sorted.
  rewrite sort_by_In, (unique_In _ period_eqb_spec), df_temp_months, dropna_In,
    in_map_iff.
  split; intros [r [H1 H2]]; exists r; auto.
Qed.

Lemma months_sorted_NoDup (date_col : Row -> option Timestamp) (df : DataFrame) :
  NoDup (months_sorted date_col df).
Proof.
  apply sort_by_NoDup, (unique_NoDup _ period_eqb_spec).
Qed.

Lemma status_dict_get {V : Type} (f : option string -> V) (s : option string) :
  In s STATUS_ORDER_init ->
  dict_get status_key_eqb (map (fun s => (s, f s)) STATUS_ORDER_init) s
  = Some (f s).
Proof.
  intros [<-|[<-|[<-|[<-|[<-|[<-|[]]]]]]]; reflexivity.
Qed.

Lemma col_eq_true (cell s : option string) : col_eq cell s = true -> cell = s.
Proof.
  destruct cell as [a|], s as [b|]; simpl; try discriminate.
  intros H. apply String.eqb_eq in H. now subst.
Qed.

Lemma get_time_series_bucketed (date_col : Row -> option Timestamp)
  (df : DataFrame) :
  bucketed_by_date_col date_col (_get_time_series date_col df) df.
Proof.
  split; [reflexivity|]. split; [apply months_sorted_In|].
  intros s Hs. cbv [_get_time_series by_status count_by_status]. split.
  - rewrite (status_dict_get _ s Hs). f_equal.
    apply map_ext. intros m. apply df_temp_mask_sum.
  - rewrite (status_dict_get _ s Hs). f_equal.
    apply map_ext. intros m. unfold month_status_mask.
    now rewrite (df_temp_filter date_col df m (status_mask s)).
Qed.

(** C2, as stated, fails: the row of [lost_row] was paid in January 2024 and
    its dispute submitted in February 2024; the payment series files it under
    January, not under the month of its representative date. *)
Lemma payment_series_not_by_representative_date :
  month_labels (series_payment lost_only_metrics) = ["2024-01"] /\
  option_map period_str (option_map to_period (representative_date lost_row))
  = Some "2024-02" /\
  ~ bucketed_by_representative_date col_payment_date (classify [lost_row]).
Proof.
  split; [reflexivity|]. split; [reflexivity|].
  intros H.
  specialize (H (add_columns lost_row) (mkPeriod 2024 1) (or_introl eq_refl) eq_refl).
  discriminate H.
Qed.

(** C2, amended: the classifier computes the representative date of every
    record (submission date if present, else payment date) and its month,
    but each time series of the bundle is bucketed by its own date basis:
    the payment series by the month of [payment_date], the chargeback series
    by the month of [chargeback_received_date]. *)
Theorem series_bucketed_by_own_date_basis (rows : list RawRow) :
  let df := classify rows in
  let fought_df := filter (fun r : Row => is_fought r) df in
  let d := process_data rows in
  (forall r : Row, In r df ->
     dashboard_date r = representative_date r /\
     month r = option_map to_period (representative_date r)) /\
  bucketed_by_date_col col_payment_date (series_payment (all_metrics d)) df /\
  bucketed_by_date_col col_chargeback_received_date (series_cb (all_metrics d)) df /\
  bucketed_by_date_col col_payment_date (series_payment (fought_metrics d))
    fought_df /\
  bucketed_by_date_col col_chargeback_received_date (series_cb (fought_metrics d))
    fought_df.
Proof.
  intros df fought_df d. split.
  - intros r Hr. apply in_map_iff in Hr as [r0 [<- _]]. split; reflexivity.
  - split; [|split; [|split]]; apply get_time_series_bucketed.
Qed.

Lemma series_bucketed_by_own_date_basis_witness :
  dict_get status_key_eqb
    (count_by_status (series_payment lost_only_metrics)) (Some "Accepted")
  = Some [1] /\
  dict_get status_key_eqb
    (count_by_status (series_cb lost_only_metrics)) (Some "Accepted")
  = Some [1].
Proof.
  destruct (series_bucketed_by_own_date_basis [lost_row])
    as [_ [[_ [_ P]] [[_ [_ C]] _]]].
  split.
  - destruct (P (Some "Accepted")) as [E _].
    + unfold STATUS_ORDER_init; simpl; tauto.
    + unfold lost_only_metrics. rewrite E. reflexivity.
  - destruct (C (Some "Accepted")) as [E _].
    + unfold STATUS_ORDER_init; simpl; tauto.
    + unfold lost_only_metrics. rewrite E. reflexivity.
Defined.

Lemma months_sorted_length (date_col : Row -> option Timestamp) (df : DataFrame) :
  length (months_sorted date_col df) = distinct_months date_col df.
Proof.
  unfold distinct_months. apply Permutation_length, NoDup_Permutation.
  - apply months_sorted_NoDup.
  - apply NoDup_nodup.
  - intros m. unfold months_sorted.
    rewrite sort_by_In, (unique_In _ period_eqb_spec), df_temp_months, nodup_In.
    reflexivity.
Qed.

Lemma get_time_series_dense (date_col : Row -> option Timestamp) (df : DataFrame) :
  dense date_col (_get_time_series date_col df) df.
Proof.
  intros s Hs. cbv [_get_time_series by_status count_by_status].
  rewrite !(status_dict_get _ s Hs).
  eexists; eexists. split; [reflexivity|]. split; [reflexivity|].
  rewrite !length_map, months_sorted_length.
  split; [reflexivity|]. split; [reflexivity|].
  intros i m Hi Hnone.
  assert (F : filter (month_status_mask m s) (df_temp date_col df) = []).
  { apply filter_none. intros [r m'] Hrm. apply df_temp_In in Hrm as [Hr T].
    unfold month_status_mask; simpl.
    destruct (period_eqb m' m) eqn:E; [|reflexivity]. simpl.
    apply period_eqb_spec in E; subst m'.
    destruct (status_mask s r) eqn:S; [|reflexivity].
    apply col_eq_true in S. now elim (Hnone r Hr T). }
  rewrite !nth_error_map, Hi; simpl. unfold mask_sum. rewrite F. split; reflexivity.
Qed.

(** C4: for each of the two date bases, every status of [STATUS_ORDER[:-1]]
    has an amount array and a count array whose length is the number of
    distinct months of that basis among the rows where it is not null, and
    a month with no row of that status holds 0 in both arrays. *)
Theorem time_series_dense (df : DataFrame) :
  let m := _aggregate_dashboard_metrics df in
  dense col_payment_date (series_payment m) df /\
  dense col_chargeback_received_date (series_cb m) df.
Proof.
  split; apply get_time_series_dense.
Qed.

Lemma time_series_dense_witness :
  exists amounts : list Q,
    dict_get status_key_eqb
      (by_status (series_payment
         (_aggregate_dashboard_metrics (classify [lost_row; unknown_plain_row]))))
      (Some "Won") = Some amounts /\
    length amounts = 2.
Proof.
  destruct (time_series_dense (classify [lost_row; unknown_plain_row])) as [P _].
  destruct (P (Some "Won")) as [amounts [counts [Ha [_ [La _]]]]].
  - unfold STATUS_ORDER_init; simpl; tauto.
  - exists amounts. split; [exact Ha | rewrite La; reflexivity].
Defined.

(** ** Rankings *)

Lemma firstn_In {A : Type} (n : nat) (l : list A) (x : A) :
  In x (firstn n l) -> In x l.
Proof.
  intros H. rewrite <- (firstn_skipn n l). apply in_or_app. now left.
Qed.

Lemma Sorted_weaken {A : Type} (R R' : A -> A -> Prop) (l : list A) :
  (forall a b, R a b -> R' a b) -> Sorted R l -> Sorted R' l.
Proof.
  intros W. induction 1 as [|x l Hs IH Hhd]; constructor; auto.
  destruct Hhd; constructor; auto.
Qed.

Lemma top10_length (col : Row -> option string) (df : DataFrame) :
  length (top10 col df) <= 10.
Proof. apply firstn_le_length. Qed.

Lemma top10_sorted (col : Row -> option string) (df : DataFrame) :
  StronglySorted count_ge (top10 col df).
Proof.
  apply Sorted_StronglySorted.
  - intros a b c. unfold count_ge. lia.
  - apply Sorted_firstn.
    apply Sorted_weaken with (R := fun a b => count_geb a b = true).
    + intros a b. unfold count_geb, count_ge. apply Nat.leb_le.
    + apply sort_by_sorted, count_geb_total.
Qed.

Lemma group_keys_In (col : Row -> option string) (df : DataFrame) (k : string) :
  In k (group_keys col df) <-> exists r, In r df /\ col r = Some k.
Proof.
  unfold group_keys.
  rewrite sort_by_In, (unique_In _ string_eqb_spec), dropna_In, in_map_iff.
  split; intros [r [H1 H2]]; exists r; auto.
Qed.

Lemma group_keys_NoDup (col : Row -> option string) (df : DataFrame) :
  NoDup (group_keys col df).
Proof. apply sort_by_NoDup, (unique_NoDup _ string_eqb_spec). Qed.

Lemma top10_In (col : Row -> option string) (df : DataFrame) (e : RankEntry) :
  In e (top10 col df) ->
  In (key e) (group_keys col df) /\
  count e = mask_sum (key_mask col (key e)) df /\
  total e = sum_amount (filter (key_mask col (key e)) df).
Proof.
  intros H. apply firstn_In in H. apply sort_by_In in H.
  apply in_map_iff in H as [k [<- Hk]]. simpl. auto.
Qed.

(** Each row with a key is selected by exactly one group, a row without
    key by none. *)
Lemma groups_of_row (col : Row -> option string) (df : DataFrame) (r : Row) :
  In r df ->
  mask_sum (fun k => key_mask col k r) (group_keys col df)
  = if isna (col r) then 0 else 1.
Proof.
  intros Hr. unfold key_mask.
  destruct (col r) as [x|] eqn:E; simpl.
  - apply (NoDup_mask_sum_eqb (fun a b => String.eqb b a)).
    + intros a b. rewrite String.eqb_eq. split; congruence.
    + apply group_keys_NoDup.
    + apply group_keys_In. now exists r.
  - unfold mask_sum. now rewrite filter_none.
Qed.

Lemma groupby_counts (col : Row -> option string) (df : DataFrame) :
  sum_nat (map count (groupby_agg col df))
  = mask_sum (fun r => negb (isna (col r))) df.
Proof.
  unfold groupby_agg. rewrite map_map. simpl.
  rewrite count_swap, mask_sum_indicator.
  f_equal. apply map_ext_in. intros r Hr.
  rewrite (groups_of_row col df r Hr). now destruct (isna (col r)).
Qed.

Lemma top10_counts (col : Row -> option string) (df : DataFrame) :
  sum_nat (map count (top10 col df))
  <= mask_sum (fun r => negb (isna (col r))) df /\
  (length (groupby_agg col df) <= 10 ->
   sum_nat (map count (top10 col df))
   = mask_sum (fun r => negb (isna (col r))) df).
Proof.
  rewrite <- groupby_counts.
  assert (P : sum_nat (map count (sort_by count_geb (groupby_agg col df)))
              = sum_nat (map count (groupby_agg col df))).
  { apply sum_nat_perm, Permutation_map, sort_by_perm. }
  unfold top10. split.
  - rewrite <- P, <- firstn_map. apply sum_nat_firstn_le.
  - intros L. rewrite firstn_all2; [exact P|].
    now rewrite sort_by_length.
Qed.

Lemma top10_won_only (col : Row -> option string) (df : DataFrame) :
  won_only col (top10 col (filter won_mask df)) df.
Proof.
  intros e He W.
  assert (X : filter (key_mask col (key e)) (filter won_mask df) = filter W df).
  { rewrite filter_filter. apply filter_ext. intros r. unfold W, won_mask, raw_status_is.
    now destruct (status r). }
  apply top10_In in He as [Hk [Hc Ht]].
  unfold mask_sum in *. rewrite X in Hc, Ht.
  repeat split; auto.
  rewrite Hc, <- X.
  apply group_keys_In in Hk as [r [Hr Hcol]].
  assert (I : In r (filter (key_mask col (key e)) (filter won_mask df))).
  { apply filter_In. split; [exact Hr|].
    unfold key_mask. rewrite Hcol. simpl. apply String.eqb_refl. }
  destruct (filter (key_mask col (key e)) (filter won_mask df));
    [destruct I | simpl; lia].
Qed.

(** C5: each of the four ranking tables has at most 10 entries, every entry's
    count is at least the count of every later entry, and an entry of a
    won-only table counts and sums exactly the rows with [status == "Won"]
    that carry its key (there is at least one). *)
Theorem rankings_top10_sorted (df : DataFrame) :
  let m := _aggregate_dashboard_metrics df in
  ranking_ok (top_operators m) /\
  ranking_ok (top_operators_won m) /\
  ranking_ok (top_banks_total m) /\
  ranking_ok (top_banks_won m) /\
  won_only col_operator (top_operators_won m) df /\
  won_only col_bank (top_banks_won m) df.
Proof.
  cbv zeta.
  cbv [_aggregate_dashboard_metrics top_operators top_operators_won
       top_banks_total top_banks_won ranking_ok].
  repeat match goal with
         | |- _ /\ _ => split
         | |- length _ <= 10 => apply top10_length
         | |- StronglySorted _ _ => apply top10_sorted
         | |- won_only _ _ _ => apply top10_won_only
         end.
Qed.

Lemma rankings_top10_sorted_witness :
  let m := _aggregate_dashboard_metrics (classify [lost_row; unknown_plain_row]) in
  length (top_operators m) <= 10 /\ top_operators_won m = [].
Proof.
  destruct (rankings_top10_sorted (classify [lost_row; unknown_plain_row]))
    as [[L _] _].
  split; [exact L | reflexivity].
Defined.

Lemma top10_excludes_null (col : Row -> option string) (df : DataFrame) :
  excludes_null col (top10 col df) df.
Proof.
  split; [|split; [|split]].
  - intros e He. apply top10_In in He as [Hk [Hc Ht]].
    split; [now apply group_keys_In | now split].
  - intros e r _ Hr. unfold key_mask. now rewrite Hr.
  - apply top10_counts.
  - intros L. apply top10_counts.
    unfold groupby_agg. now rewrite length_map.
Qed.

(** C9: a ranking entry's key is the operator (bank) of some row, and its
    count and amount come from the rows with that very key; a row whose
    operator (bank) is null is selected by no entry; the counts of a table
    add up to at most the number of rows with a key, and to exactly that
    number when there are at most 10 distinct keys.  On three rows, one
    without operator and another without bank, the operator counts and the
    bank counts each add up to 2 while [total_records] is 3. *)
Theorem null_keys_not_ranked (df : DataFrame) :
  let m := _aggregate_dashboard_metrics df in
  excludes_null col_operator (top_operators m) df /\
  excludes_null col_bank (top_banks_total m) df /\
  excludes_null col_operator (top_operators_won m) (filter won_mask df) /\
  excludes_null col_bank (top_banks_won m) (filter won_mask df) /\
  (let m2 := _aggregate_dashboard_metrics
               (classify [lost_row; unknown_fought_row; unknown_plain_row]) in
   length (group_keys col_operator
             (classify [lost_row; unknown_fought_row; unknown_plain_row])) <= 10 /\
   sum_nat (map count (top_operators m2)) = 2 /\
   sum_nat (map count (top_banks_total m2)) = 2 /\
   total_records m2 = 3).
Proof.
  cbv zeta.
  split; [apply top10_excludes_null|].
  split; [apply top10_excludes_null|].
  split; [apply top10_excludes_null|].
  split; [apply top10_excludes_null|].
  vm_compute. repeat split; lia.
Qed.

Lemma null_keys_not_ranked_witness :
  let m := _aggregate_dashboard_metrics (classify [lost_row; unknown_plain_row]) in
  sum_nat (map count (top_operators m)) = 1 /\ total_records m = 2.
Proof.
  destruct (null_keys_not_ranked (classify [lost_row; unknown_plain_row]))
    as [[_ [_ [_ E]]] _].
  split; [|reflexivity].
  cbv zeta. rewrite E; [reflexivity|].
  vm_compute. lia.
Defined.

(** ** Card-type distribution *)

Lemma prefix_spec (sub t : string) :
  String.prefix sub t = true <-> exists post, t = (sub ++ post)%string.
Proof.
  revert t. induction sub as [|c sub IH]; intros t.
  - split; [intros _; now exists t | intros _; now destruct t].
  - destruct t as [|c' t]; simpl.
    + split; [discriminate | intros [post H]; discriminate].
    + destruct (Ascii.ascii_dec c c') as [->|N].
      * rewrite IH. split; intros [post H]; exists post; congruence.
      * split; [discriminate | intros [post H]; congruence].
Qed.

Lemma contains_nil (sub : string) : contains sub "" = String.prefix sub "".
Proof. simpl. now destruct sub. Qed.

Lemma contains_cons (sub : string) (c : ascii) (t : string) :
  contains sub (String c t) = String.prefix sub (String c t) || contains sub t.
Proof.
  change (contains sub (String c t))
    with (if String.prefix sub (String c t) then true else contains sub t).
  now destruct (String.prefix sub (String c t)).
Qed.

(** [contains sub t] is the substring test. *)
Lemma contains_spec (sub t : string) :
  contains sub t = true <-> exists pre post, t = (pre ++ sub ++ post)%string.
Proof.
  induction t as [|c t IH].
  - rewrite contains_nil, prefix_spec. split.
    + intros [post H]. now exists ""%string, post.
    + intros [pre [post H]]. destruct pre; [|discriminate]. eauto.
  - rewrite contains_cons, orb_true_iff, prefix_spec, IH. split.
    + intros [[post H]|[pre [post H]]].
      * now exists ""%string, post.
      * exists (String c pre), post. simpl. congruence.
    + intros [pre [post H]]. destruct pre as [|c' pre]; simpl in H.
      * left. eauto.
      * right. injection H as _ H. eauto.
Qed.

Lemma value_counts_sum (l : list string) :
  sum_nat (map snd (value_counts l)) = length l.
Proof.
  unfold value_counts.
  rewrite (sum_nat_perm _ _ (Permutation_map snd (sort_by_perm count_geb_pair _))).
  rewrite map_map; simpl.
  apply count_partition. intros x Hx.
  apply (NoDup_mask_sum_eqb _ string_eqb_spec).
  - apply (unique_NoDup _ string_eqb_spec).
  - now apply (unique_In _ string_eqb_spec).
Qed.

(** C6: a record's class is [map_cc_type] of its lowercased type, a null
    type counting as "desconocido"; the rules apply in order (a "visa"
    substring gives VISA; else "mastercard" or "master" gives MasterCard;
    else "amex" or "american" gives AMEX; else Otro, the label for Other),
    where [contains] is the substring test; the class counts add up to
    [total_records]; and the five types Visa, MASTERCARD, amex debit,
    discover, null give VISA 1, MasterCard 1, AMEX 1, Otro 2. *)
Theorem type_distribution_spec (df : DataFrame) :
  let m := _aggregate_dashboard_metrics df in
  mapped_types df = map cc_class df /\
  (forall r : Row, type r = None -> cc_class r = "Otro") /\
  (forall sub t, contains sub t = true
                 <-> exists pre post, t = (pre ++ sub ++ post)%string) /\
  (forall t, contains "visa" t = true -> map_cc_type t = "VISA") /\
  (forall t, contains "visa" t = false ->
             contains "mastercard" t = true \/ contains "master" t = true ->
             map_cc_type t = "MasterCard") /\
  (forall t, contains "visa" t = false ->
             contains "mastercard" t = false -> contains "master" t = false ->
             contains "amex" t = true \/ contains "american" t = true ->
             map_cc_type t = "AMEX") /\
  (forall t, contains "visa" t = false ->
             contains "mastercard" t = false -> contains "master" t = false ->
             contains "amex" t = false -> contains "american" t = false ->
             map_cc_type t = "Otro") /\
  type_donut_labels m = map fst (value_counts (map cc_class df)) /\
  type_donut_values m
  = map (fun k => mask_sum (fun r => String.eqb k (cc_class r)) df)
        (type_donut_labels m) /\
  sum_nat (type_donut_values m) = total_records m /\
  Permutation
    (type_distribution (all_metrics (process_data five_types)))
    [ ("VISA", 1); ("MasterCard", 1); ("AMEX", 1); ("Otro", 2) ].
Proof.
  cbv zeta.
  assert (M : mapped_types df = map cc_class df).
  { unfold mapped_types, types_raw. now rewrite map_map. }
  split; [exact M|].
  split; [intros r H; unfold cc_class; now rewrite H|].
  split; [apply contains_spec|].
  split; [intros t H; unfold map_cc_type; now rewrite H|].
  split; [intros t H [H1|H1]; unfold map_cc_type; rewrite H, H1;
          now rewrite ?orb_true_r|].
  split; [intros t H H1 H2 [H3|H3]; unfold map_cc_type;
          rewrite H, H1, H2, H3; now rewrite ?orb_true_r|].
  split; [intros t H H1 H2 H3 H4; unfold map_cc_type;
          now rewrite H, H1, H2, H3, H4|].
  cbv [_aggregate_dashboard_metrics type_donut_labels type_donut_values
       total_records].
  rewrite M.
  split; [reflexivity|].
  split.
  - unfold value_counts.
    set (u := unique String.eqb (map cc_class df)).
    set (f := fun k : string => (k, mask_sum (String.eqb k) (map cc_class df))).
    assert (E : forall l, Forall (fun p => snd p = snd (f (fst p))) l ->
                          map snd l = map (fun k => snd (f k)) (map fst l)).
    { induction 1 as [|p l Hp Hl IH]; simpl; [reflexivity|]. now rewrite Hp, IH. }
    rewrite E.
    + apply map_ext. intros k. unfold f, mask_sum; simpl.
      rewrite <- (length_map cc_class (filter _ df)).
      f_equal. clear. induction df as [|r df IH]; simpl; [reflexivity|].
      destruct (String.eqb k (cc_class r)); simpl; now rewrite IH.
    + apply Forall_forall. intros p Hp. apply sort_by_In in Hp.
      apply in_map_iff in Hp as [k [<- _]]. reflexivity.
  - split.
    + rewrite value_counts_sum. apply length_map.
    + vm_compute.
      apply Permutation_cons_app with (l1 := [("VISA", 1); ("MasterCard", 1); ("AMEX", 1)])
                                      (l2 := []).
      apply Permutation_refl.
Qed.

Lemma type_distribution_spec_witness :
  map_cc_type (lower "Visa Platinum") = "VISA" /\
  map_cc_type (lower "Master Debit") = "MasterCard".
Proof.
  destruct (type_distribution_spec []) as [_ [_ [_ [V [M _]]]]].
  split.
  - apply V. reflexivity.
  - apply M; [reflexivity | right; reflexivity].
Defined.

(** ** Country distribution *)

Lemma series_set_absent (d : list (string * nat)) (k : string) (v : nat) :
  ~ In k (map fst d) -> series_set String.eqb d k v = d ++ [(k, v)].
Proof.
  induction d as [|[k' v'] d IH]; simpl; intros H; [reflexivity|].
  destruct (String.eqb k' k) eqn:E.
  - apply String.eqb_eq in E. tauto.
  - rewrite IH; tauto.
Qed.

(** A null country counts as "DESCONOCIDO". *)
Lemma country_raw_null (r : Row) :
  country r = None -> country_raw [r] = ["DESCONOCIDO"].
Proof. intros H. unfold country_raw; simpl. now rewrite H. Qed.

(** With at most four distinct countries nothing is merged, and with more
    the distribution is the first four entries followed by "OTRO" with the
    sum of the others, provided none of the first four is itself "OTRO";
    the values then add up to [total_records]. *)
Lemma country_counts_nominal (df : DataFrame) :
  let cc := value_counts (country_raw df) in
  ~ In "OTRO" (map fst (firstn 4 cc)) ->
  country_counts df
  = (if 4 <? length cc
     then firstn 4 cc ++ [("OTRO", sum_nat (map snd (skipn 4 cc)))]
     else cc) /\
  sum_nat (country_donut_values (_aggregate_dashboard_metrics df))
  = total_records (_aggregate_dashboard_metrics df).
Proof.
  intros cc H.
  assert (E : country_counts df
              = if 4 <? length cc
                then firstn 4 cc ++ [("OTRO", sum_nat (map snd (skipn 4 cc)))]
                else cc).
  { unfold country_counts. fold cc. destruct (4 <? length cc); [|reflexivity].
    now apply series_set_absent. }
  split; [exact E|].
  cbv [_aggregate_dashboard_metrics country_donut_values total_records].
  rewrite E.
  assert (S : sum_nat (map snd cc) = length df).
  { unfold cc. rewrite value_counts_sum. apply length_map. }
  destruct (4 <? length cc); [|exact S].
  rewrite <- S. rewrite <- (firstn_skipn 4 cc) at 3.
  rewrite !map_app, !sum_nat_app.
  change (sum_nat (map snd [("OTRO", sum_nat (map snd (skipn 4 cc)))]))
    with (sum_nat (map snd (skipn 4 cc)) + 0).
  lia.
Qed.

Lemma six_countries_distribution :
  let m := all_metrics (process_data six_countries) in
  country_donut_labels m = ["MX"; "US"; "BR"; "AR"; "OTRO"] /\
  country_donut_values m = [10; 8; 6; 4; 3] /\
  total_records m = 31.
Proof. vm_compute. repeat split. Qed.

(** C7, at an input where a country among the first four is itself "OTRO":
    the assignment [country_counts["OTRO"] = otro_count] overwrites that
    country's count instead of adding a bucket, so the distribution has four
    entries whose values add up to 4 while [total_records] is 6. *)
Theorem country_donut_otro_collision :
  let m := all_metrics (process_data otro_rows) in
  value_counts (country_raw (classify otro_rows))
  = [ ("OTRO", 2); ("MX", 1); ("US", 1); ("BR", 1); ("AR", 1) ] /\
  country_donut_labels m = ["OTRO"; "MX"; "US"; "BR"] /\
  country_donut_values m = [1; 1; 1; 1] /\
  sum_nat (country_donut_values m) = 4 /\
  total_records m = 6.
Proof. vm_compute. repeat split. Qed.

(** * Further properties of the aggregator *)

(** ** Scalar totals and the status summary *)

Lemma mask_sum_le {A : Type} (p : A -> bool) (l : list A) :
  mask_sum p l <= length l.
Proof. unfold mask_sum. induction l; simpl; [lia|]. destruct (p a); simpl; lia. Qed.

Lemma mask_sum_disjoint {A : Type} (p q : A -> bool) (l : list A) :
  (forall x, p x = true -> q x = false) ->
  mask_sum p l + mask_sum q l <= length l.
Proof.
  intros D. unfold mask_sum. induction l as [|x l IH]; simpl; [lia|].
  destruct (p x) eqn:P; [rewrite (D x P)|destruct (q x)]; simpl; lia.
Qed.

Lemma mask_sum_filter_le {A : Type} (p q : A -> bool) (l : list A) :
  mask_sum p (filter q l) <= mask_sum p l.
Proof.
  unfold mask_sum. induction l as [|x l IH]; simpl; [lia|].
  destruct (q x); simpl; destruct (p x); simpl; lia.
Qed.

Lemma mask_sum_ext_in {A : Type} (p q : A -> bool) (l : list A) :
  (forall x, In x l -> p x = q x) -> mask_sum p l = mask_sum q l.
Proof. intros H. unfold mask_sum. now rewrite (filter_ext_in _ _ _ H). Qed.

(** On a classified row the mask of a raw status and the mask of the same
    dashboard status agree. *)
Lemma classified_status_mask (r0 : RawRow) (s : string) :
  In s RAW_STATUSES ->
  status_mask (Some s) (add_columns r0) = col_eq (status r0) (Some s).
Proof.
  intros Hs. unfold status_mask, add_columns; simpl.
  destruct (status r0) as [x|]; simpl; [reflexivity|].
  destruct Hs as [<-|[<-|[<-|[<-|[]]]]]; now destruct (is_fought r0).
Qed.

Lemma classified_sub_frame (rows : list RawRow) (df : DataFrame) :
  incl df (classify rows) ->
  forall r, In r df -> exists r0, r = add_columns r0.
Proof.
  intros I r Hr. apply I in Hr. apply in_map_iff in Hr as [r0 [<- _]]. eauto.
Qed.

Lemma summary_cell_of_raw_status (rows : list RawRow) (df : DataFrame)
  (s : string) :
  incl df (classify rows) -> In s RAW_STATUSES ->
  dict_get status_key_eqb (status_summary (_aggregate_dashboard_metrics df)) (Some s)
  = Some (mkCell (mask_sum (fun r : Row => col_eq (status r) (Some s)) df)
                 (sum_amount (filter (fun r : Row => col_eq (status r) (Some s)) df))).
Proof.
  intros I Hs.
  cbv [status_summary _aggregate_dashboard_metrics build_status_summary].
  rewrite (status_dict_get _ (Some s)).
  - assert (E : forall r, In r df ->
                  status_mask (Some s) r = col_eq (status r) (Some s)).
    { intros r Hr. destruct (classified_sub_frame rows df I r Hr) as [r0 ->].
      now apply classified_status_mask. }
    unfold mask_sum. now rewrite (filter_ext_in _ _ _ E).
  - unfold STATUS_ORDER_init; simpl.
    destruct Hs as [<-|[<-|[<-|[<-|[]]]]]; tauto.
Qed.

(** In both bundles of [process_data] the summary cell of "Won" holds
    [won_count] and [recovered_amount], the cell of "Accepted" holds
    [lost_count] and [lost_amount], and won and lost rows together are at
    most [total_records]. *)
Theorem scalars_agree_with_summary (rows : list RawRow) :
  let d := process_data rows in
  forall m, m = all_metrics d \/ m = fought_metrics d ->
    dict_get status_key_eqb (status_summary m) (Some "Won")
    = Some (mkCell (won_count m) (recovered_amount m)) /\
    dict_get status_key_eqb (status_summary m) (Some "Accepted")
    = Some (mkCell (lost_count m) (lost_amount m)) /\
    won_count m + lost_count m <= total_records m /\
    fought_count m <= total_records m.
Proof.
  intros d m Hm.
  assert (G : forall df, incl df (classify rows) ->
    let m := _aggregate_dashboard_metrics df in
    dict_get status_key_eqb (status_summary m) (Some "Won")
    = Some (mkCell (won_count m) (recovered_amount m)) /\
    dict_get status_key_eqb (status_summary m) (Some "Accepted")
    = Some (mkCell (lost_count m) (lost_amount m)) /\
    won_count m + lost_count m <= total_records m /\
    fought_count m <= total_records m).
  { intros df I. cbv zeta. split; [|split; [|split]].
    - apply (summary_cell_of_raw_status rows df "Won" I). simpl; tauto.
    - apply (summary_cell_of_raw_status rows df "Accepted" I). simpl; tauto.
    - cbv [won_count lost_count total_records _aggregate_dashboard_metrics].
      apply mask_sum_disjoint. intros r. unfold won_mask, lost_mask.
      destruct (status r) as [x|]; simpl; [|discriminate].
      intros H. apply String.eqb_eq in H. now subst x.
    - apply mask_sum_le. }
  destruct Hm as [-> | ->].
  - apply (G (classify rows)). apply incl_refl.
  - apply (G (filter (fun r : Row => is_fought r) (classify rows))).
    apply incl_filter.
Qed.

Lemma scalars_agree_with_summary_witness :
  dict_get status_key_eqb (status_summary lost_only_metrics) (Some "Accepted")
  = Some (mkCell 1 (50 # 1)).
Proof.
  destruct (scalars_agree_with_summary [lost_row] lost_only_metrics)
    as [_ [E _]].
  - left. reflexivity.
  - rewrite E. reflexivity.
Defined.

Lemma Forall2_map_le {A : Type} (f g : A -> nat) (l : list A) :
  (forall x, f x <= g x) -> Forall2 le (map f l) (map g l).
Proof. intros H. induction l; simpl; constructor; auto. Qed.

(** The bundle of the fought rows lies within the bundle of all rows: its
    [total_records] and [total_amount] are the [fought_count] and
    [fought_amount] of the full bundle, and none of its won, lost or
    per-status counts exceeds the corresponding count of the full bundle. *)
Theorem fought_bundle_within_all (rows : list RawRow) :
  let d := process_data rows in
  let a := all_metrics d in
  let f := fought_metrics d in
  total_records f = fought_count a /\
  total_amount f = fought_amount a /\
  won_count f <= won_count a /\
  lost_count f <= lost_count a /\
  Forall2 le (status_counts f) (status_counts a).
Proof.
  cbv zeta. unfold process_data; cbv [all_metrics fought_metrics].
  rewrite !status_counts_eq.
  cbv [_aggregate_dashboard_metrics total_records total_amount fought_count
       fought_amount won_count lost_count].
  split; [reflexivity|]. split; [reflexivity|].
  split; [apply mask_sum_filter_le|]. split; [apply mask_sum_filter_le|].
  apply Forall2_map_le. intros s. apply mask_sum_filter_le.
Qed.

Lemma buckets_of_listed (r : Row) :
  mask_sum (fun s => status_mask s r) STATUS_ORDER_init
  = if listed r then 1 else 0.
Proof.
  unfold listed, mask_sum, status_mask, STATUS_ORDER_init.
  destruct (dashboard_status r) as [a|]; [|reflexivity].
  simpl.
  repeat match goal with
         | |- context [String.eqb a ?k] =>
             destruct (String.eqb_spec a k); [subst a; reflexivity|]
         end.
  reflexivity.
Qed.

Lemma existsb_ext_in {A : Type} (f g : A -> bool) (l : list A) :
  (forall x, In x l -> f x = g x) -> existsb f l = existsb g l.
Proof.
  induction l as [|x l IH]; simpl; intros H; [reflexivity|].
  rewrite (H x (or_introl eq_refl)), IH; [reflexivity|].
  intros y Hy. apply H. now right.
Qed.

Lemma classified_listed (r0 : RawRow) :
  listed (add_columns r0) = negb (unlisted_raw r0).
Proof.
  unfold listed, unlisted_raw, status_mask, add_columns.
  cbv [dashboard_status].
  destruct (status r0) as [a|].
  - cbv [isna andb]. rewrite negb_involutive.
    apply existsb_ext_in. intros s Hs.
    destruct s as [k|]; simpl; [apply String.eqb_sym | reflexivity].
  - now destruct (is_fought r0).
Qed.

Lemma mask_sum_negb {A : Type} (p : A -> bool) (l : list A) :
  mask_sum p l + mask_sum (fun x => negb (p x)) l = length l.
Proof.
  unfold mask_sum. induction l as [|x l IH]; simpl; [reflexivity|].
  destruct (p x); simpl; lia.
Qed.

Lemma mask_sum_map {A B : Type} (f : A -> B) (p : B -> bool) (l : list A) :
  mask_sum p (map f l) = mask_sum (fun x => p (f x)) l.
Proof.
  unfold mask_sum. induction l as [|x l IH]; simpl; [reflexivity|].
  destruct (p (f x)); simpl; now rewrite IH.
Qed.

Lemma status_counts_listed (df : DataFrame) :
  sum_nat (status_counts (_aggregate_dashboard_metrics df)) = mask_sum listed df.
Proof.
  rewrite status_counts_eq, count_swap, mask_sum_indicator.
  f_equal. apply map_ext. intros r. apply buckets_of_listed.
Qed.

(** Without any condition on the raw statuses: the six status counts add
    up to [total_records] minus the number of rows whose raw status is
    present and is none of the six enumerated names (such a row is counted
    in no status); in particular they never exceed [total_records].  The
    status donut shows the same six counts, in the same order. *)
Theorem status_counts_shortfall (rows : list RawRow) :
  let m := all_metrics (process_data rows) in
  sum_nat (status_counts m) + mask_sum unlisted_raw rows = total_records m /\
  sum_nat (status_counts m) <= total_records m /\
  status_donut_values m = status_counts m /\
  length (status_donut_labels m) = 6 /\
  length (status_donut_colors m) = 6.
Proof.
  cbv zeta. unfold process_data; cbv [all_metrics].
  rewrite status_counts_listed.
  assert (E : mask_sum listed (classify rows)
              = mask_sum (fun r => negb (unlisted_raw r)) rows).
  { unfold classify. rewrite mask_sum_map.
    apply mask_sum_ext_in. intros r _. apply classified_listed. }
  assert (T : total_records (_aggregate_dashboard_metrics (classify rows))
              = length rows).
  { cbv [total_records _aggregate_dashboard_metrics]. apply length_map. }
  pose proof (mask_sum_negb unlisted_raw rows) as N.
  rewrite E, T.
  split; [lia|]. split; [lia|].
  split; [|split]; reflexivity.
Qed.

(** ** Further properties of the time series *)

Lemma Sorted_strict {A : Type} (R : A -> A -> Prop) (l : list A) :
  Sorted R l -> NoDup l -> Sorted (fun a b => R a b /\ a <> b) l.
Proof.
  induction 1 as [|x l Hs IH Hhd]; intros N; constructor.
  - apply IH. now inversion N.
  - destruct Hhd as [|y l' Hxy]; constructor. split; [exact Hxy|].
    intros ->. inversion N as [|? ? Hn _]. apply Hn. now left.
Qed.

Lemma period_leb_strict (a b : Period) :
  period_leb a b = true /\ a <> b -> period_lt a b.
Proof.
  destruct a as [ya ma], b as [yb mb]; unfold period_leb, period_lt; simpl.
  rewrite orb_true_iff, andb_true_iff, Nat.ltb_lt, Nat.eqb_eq, Nat.leb_le.
  intros [[H|[H1 H2]] N]; [now left|]. right. split; [exact H1|].
  destruct (Nat.eq_dec ma mb) as [->|]; [subst; now elim N | lia].
Qed.

Lemma months_sorted_strict (date_col : Row -> option Timestamp) (df : DataFrame) :
  StronglySorted period_lt (months_sorted date_col df).
Proof.
  apply Sorted_StronglySorted.
  - intros a b c. unfold period_lt. lia.
  - apply Sorted_weaken with (R := fun a b => period_leb a b = true /\ a <> b).
    + intros a b. apply period_leb_strict.
    + apply Sorted_strict; [|apply months_sorted_NoDup].
      apply sort_by_sorted, period_leb_total.
Qed.

(** The months of a series come in strictly increasing chronological order,
    and the label list and the success list have one entry per month. *)
Theorem months_chronological (date_col : Row -> option Timestamp)
  (df : DataFrame) :
  let ts := _get_time_series date_col df in
  StronglySorted period_lt (months_sorted date_col df) /\
  month_labels ts = map period_str (months_sorted date_col df) /\
  length (month_labels ts) = distinct_months date_col df /\
  length (success ts) = distinct_months date_col df.
Proof.
  cbv zeta. split; [apply months_sorted_strict|].
  cbv [_get_time_series month_labels success].
  rewrite !length_map, months_sorted_length. repeat split.
Qed.




Lemma months_of_row (date_col : Row -> option Timestamp) (df : DataFrame)
  (r : Row) :
  In r df ->
  mask_sum (fun m => in_month date_col m r) (months_sorted date_col df)
  = if dated date_col r then 1 else 0.
Proof.
  intros Hr. unfold in_month, dated, temp_month.
  destruct (date_col r) as [t|] eqn:E; simpl.
  - apply (NoDup_mask_sum_eqb (fun a b => period_eqb b a)).
    + intros a b. rewrite period_eqb_spec. split; congruence.
    + apply months_sorted_NoDup.
    + apply months_sorted_In. exists r. now rewrite E.
  - unfold mask_sum. now rewrite filter_none.
Qed.

Lemma month_status_of_row (date_col : Row -> option Timestamp) (df : DataFrame)
  (s : option string) (r : Row) :
  In r df ->
  mask_sum (fun m => in_month date_col m r && status_mask s r)
           (months_sorted date_col df)
  = if dated date_col r && status_mask s r then 1 else 0.
Proof.
  intros Hr. destruct (status_mask s r).
  - rewrite andb_true_r.
    rewrite (mask_sum_ext_in _ (fun m => in_month date_col m r)).
    + now apply months_of_row.
    + intros m _. apply andb_true_r.
  - rewrite andb_false_r. unfold mask_sum. rewrite filter_none; [reflexivity|].
    intros m _. apply andb_false_r.
Qed.

Lemma in_month_dated (date_col : Row -> option Timestamp) (m : Period) (r : Row) :
  in_month date_col m r = true -> dated date_col r = true.
Proof.
  unfold in_month, dated, temp_month. now destruct (date_col r).
Qed.

(** Summed over the months, the count array of a status is the number of
    rows of that status that have a date in the series' column, and its
    amount array adds up to the amount of those rows: a row without that
    date enters no month, every other row exactly one. *)
Theorem series_totals (date_col : Row -> option Timestamp) (df : DataFrame)
  (s : option string) :
  In s STATUS_ORDER_init ->
  exists (amounts : list Q) (counts : list nat),
    dict_get status_key_eqb (by_status (_get_time_series date_col df)) s
    = Some amounts /\
    dict_get status_key_eqb (count_by_status (_get_time_series date_col df)) s
    = Some counts /\
    sum_nat counts
    = mask_sum (fun r => dated date_col r && status_mask s r) df /\
    (sum_Q amounts
     == sum_amount (filter (fun r => dated date_col r && status_mask s r) df))%Q.
Proof.
  intros Hs.
  destruct (get_time_series_bucketed date_col df) as [_ [_ B]].
  destruct (B s Hs) as [Bc Ba].
  eexists; eexists. split; [exact Ba|]. split; [exact Bc|]. split.
  - rewrite count_swap, mask_sum_indicator. f_equal.
    apply map_ext_in. intros r Hr. now apply month_status_of_row.
  - set (q := fun r => dated date_col r && status_mask s r).
    rewrite <- (amount_partition
                  (fun m r => in_month date_col m r && status_mask s r)
                  (months_sorted date_col df) (filter q df)).
    + apply sum_Q_map_ext. intros m _.
      rewrite filter_filter.
      rewrite (filter_ext (fun x => q x && (in_month date_col m x && status_mask s x))
                          (fun r => in_month date_col m r && status_mask s r));
        [reflexivity|].
      intros r. unfold q.
      destruct (in_month date_col m r) eqn:I; simpl.
      * rewrite (in_month_dated _ _ _ I). simpl. now destruct (status_mask s r).
      * apply andb_false_r.
    + intros r Hr. apply filter_In in Hr as [Hr Hq].
      rewrite (month_status_of_row date_col df s r Hr).
      unfold q in Hq. now rewrite Hq.
Qed.

Lemma series_totals_witness :
  exists counts : list nat,
    dict_get status_key_eqb
      (count_by_status (_get_time_series col_chargeback_received_date
                          (classify [lost_row; unknown_plain_row])))
      (Some "N/A (non-fought)") = Some counts /\
    sum_nat counts = 0.
Proof.
  destruct (series_totals col_chargeback_received_date
              (classify [lost_row; unknown_plain_row]) (Some "N/A (non-fought)"))
    as [amounts [counts [_ [Hc [S _]]]]].
  - unfold STATUS_ORDER_init; simpl; tauto.
  - exists counts. split; [exact Hc | rewrite S; reflexivity].
Defined.

(** ** Further properties of the rankings *)

Lemma NoDup_firstn {A : Type} (n : nat) (l : list A) :
  NoDup l -> NoDup (firstn n l).
Proof.
  intros N. rewrite <- (firstn_skipn n l) in N.
  now apply NoDup_app_remove_r in N.
Qed.

Lemma StronglySorted_app_inv {A : Type} (R : A -> A -> Prop) (l1 l2 : list A) :
  StronglySorted R (l1 ++ l2) ->
  forall a b, In a l1 -> In b l2 -> R a b.
Proof.
  induction l1 as [|x l1 IH]; simpl; intros S a b Ha Hb; [destruct Ha|].
  inversion S as [|? ? S' F]; subst.
  destruct Ha as [->|Ha].
  - rewrite Forall_forall in F. apply F. apply in_or_app. now right.
  - now apply IH.
Qed.

Lemma groupby_keys (col : Row -> option string) (df : DataFrame) :
  map key (groupby_agg col df) = group_keys col df.
Proof. unfold groupby_agg. rewrite map_map. simpl. apply map_id. Qed.

Lemma sorted_groups_strongly (col : Row -> option string) (df : DataFrame) :
  StronglySorted count_ge (sort_by count_geb (groupby_agg col df)).
Proof.
  apply Sorted_StronglySorted.
  - intros a b c. unfold count_ge. lia.
  - apply Sorted_weaken with (R := fun a b => count_geb a b = true).
    + intros a b. unfold count_geb, count_ge. apply Nat.leb_le.
    + apply sort_by_sorted, count_geb_total.
Qed.

(** A ranking table names each operator (bank) at most once, every entry
    counts at least one row, and the table keeps the largest groups: a group
    that is left out has a count no larger than any entry of the table. *)
Theorem ranking_keeps_largest (col : Row -> option string) (df : DataFrame) :
  NoDup (map key (top10 col df)) /\
  (forall e, In e (top10 col df) -> 1 <= count e) /\
  (forall e g, In e (top10 col df) -> In g (groupby_agg col df) ->
               ~ In g (top10 col df) -> count g <= count e).
Proof.
  split; [|split].
  - unfold top10. rewrite <- firstn_map. apply NoDup_firstn.
    apply (Permutation_NoDup
             (Permutation_sym (Permutation_map key (sort_by_perm count_geb _)))).
    rewrite groupby_keys. apply group_keys_NoDup.
  - intros e He. apply top10_In in He as [Hk [Hc _]].
    apply group_keys_In in Hk as [r [Hr Hcol]]. rewrite Hc. unfold mask_sum.
    assert (I : In r (filter (key_mask col (key e)) df)).
    { apply filter_In. split; [exact Hr|]. unfold key_mask. rewrite Hcol.
      simpl. apply String.eqb_refl. }
    destruct (filter (key_mask col (key e)) df); [destruct I | simpl; lia].
  - intros e g He Hg Hn. unfold top10 in *.
    set (s := sort_by count_geb (groupby_agg col df)) in *.
    assert (Hs : In g s) by now apply sort_by_In.
    rewrite <- (firstn_skipn 10 s) in Hs. apply in_app_or in Hs as [Hs|Hs];
      [contradiction|].
    pose proof (sorted_groups_strongly col df) as S. fold s in S.
    rewrite <- (firstn_skipn 10 s) in S.
    apply (StronglySorted_app_inv _ _ _ S e g He Hs).
Qed.

Lemma ranking_keeps_largest_witness :
  1 <= count (nth 0 (top10 col_operator (classify [lost_row; unknown_plain_row]))
                    (mkEntry "" 0 0)).
Proof.
  apply (ranking_keeps_largest col_operator (classify [lost_row; unknown_plain_row])).
  vm_compute. left. reflexivity.
Defined.

(** ** Further properties of the distributions *)

Lemma value_counts_labels (l : list string) :
  Permutation (map fst (value_counts l)) (unique String.eqb l).
Proof.
  unfold value_counts.
  eapply perm_trans; [apply Permutation_map, sort_by_perm|].
  rewrite map_map. simpl. rewrite map_id. apply Permutation_refl.
Qed.

Lemma value_counts_In (l : list string) (k : string) (c : nat) :
  In (k, c) (value_counts l) <-> In k l /\ c = mask_sum (String.eqb k) l.
Proof.
  unfold value_counts. rewrite sort_by_In, in_map_iff. split.
  - intros [k' [E Hk]]. injection E as -> <-.
    split; [exact (proj1 (unique_In _ string_eqb_spec k l) Hk) | reflexivity].
  - intros [Hk ->]. exists k. split; [reflexivity|].
    exact (proj2 (unique_In _ string_eqb_spec k l) Hk).
Qed.

Lemma mask_sum_pos {A : Type} (p : A -> bool) (l : list A) (x : A) :
  In x l -> p x = true -> 1 <= mask_sum p l.
Proof.
  intros Hx Hp. unfold mask_sum.
  assert (I : In x (filter p l)) by (apply filter_In; auto).
  destruct (filter p l); [destruct I | simpl; lia].
Qed.

Lemma value_counts_sorted (l : list string) :
  StronglySorted (fun a b : string * nat => snd b <= snd a) (value_counts l).
Proof.
  apply Sorted_StronglySorted.
  - intros a b c. lia.
  - apply Sorted_weaken with (R := fun a b => count_geb_pair a b = true).
    + intros a b. unfold count_geb_pair. apply Nat.leb_le.
    + apply sort_by_sorted. intros a b. unfold count_geb_pair.
      rewrite !Nat.leb_le. lia.
Qed.

Lemma StronglySorted_map {A B : Type} (f : A -> B) (R : B -> B -> Prop)
  (l : list A) :
  StronglySorted (fun a b => R (f a) (f b)) l -> StronglySorted R (map f l).
Proof.
  induction 1 as [|x l S IH F]; simpl; constructor; [exact IH|].
  rewrite Forall_forall in *. intros y Hy.
  apply in_map_iff in Hy as [a [<- Ha]]. now apply F.
Qed.

Lemma map_cc_type_class (t : string) : In (map_cc_type t) CC_CLASSES.
Proof.
  unfold map_cc_type, CC_CLASSES.
  destruct (contains "visa" t); [simpl; tauto|].
  destruct (contains "mastercard" t || contains "master" t); [simpl; tauto|].
  destruct (contains "amex" t || contains "american" t); simpl; tauto.
Qed.

Lemma cc_colors_total (ks : list string) :
  Forall (fun k => In k CC_CLASSES) ks ->
  Forall2 (fun l c => dict_get String.eqb cc_colors l = Some c) ks
          (map (fun l => fillna (dict_get String.eqb cc_colors l) "#9E9E9E") ks).
Proof.
  induction 1 as [|k ks Hk _ IH]; cbn [map]; constructor; [|exact IH].
  destruct Hk as [<-|[<-|[<-|[<-|[]]]]]; reflexivity.
Qed.

(** The card-type distribution has at most four entries, with pairwise
    distinct labels among VISA, MasterCard, AMEX and Otro; every value is at
    least 1 and the values are non-increasing; and every label finds its
    colour in [cc_colors] (the grey default is never needed). *)
Theorem type_donut_shape (df : DataFrame) :
  let m := _aggregate_dashboard_metrics df in
  NoDup (type_donut_labels m) /\
  incl (type_donut_labels m) CC_CLASSES /\
  length (type_donut_labels m) <= 4 /\
  Forall (fun v => 1 <= v) (type_donut_values m) /\
  StronglySorted ge (type_donut_values m) /\
  Forall2 (fun l c => dict_get String.eqb cc_colors l = Some c)
          (type_donut_labels m) (type_donut_colors m).
Proof.
  cbv zeta.
  cbv [_aggregate_dashboard_metrics type_donut_labels type_donut_values
       type_donut_colors].
  set (vc := value_counts (mapped_types df)).
  assert (N : NoDup (map fst vc)).
  { apply (Permutation_NoDup (Permutation_sym (value_counts_labels _))).
    apply (unique_NoDup _ string_eqb_spec). }
  assert (I : incl (map fst vc) CC_CLASSES).
  { intros k Hk.
    apply (Permutation_in _ (value_counts_labels _)) in Hk.
    apply (proj1 (unique_In _ string_eqb_spec k _)) in Hk.
    unfold mapped_types in Hk. apply in_map_iff in Hk as [t [<- _]].
    apply map_cc_type_class. }
  split; [exact N|]. split; [exact I|].
  split; [apply (NoDup_incl_length N I)|].
  split; [|split].
  - apply Forall_forall. intros v Hv.
    apply in_map_iff in Hv as [[k c] [<- Hkc]]. simpl.
    apply value_counts_In in Hkc as [Hk ->].
    apply (mask_sum_pos _ _ k Hk). apply String.eqb_refl.
  - apply StronglySorted_map. unfold ge. apply value_counts_sorted.
  - apply cc_colors_total. now apply Forall_forall.
Qed.

Lemma series_set_length (d : list (string * nat)) (k : string) (v : nat) :
  length d <= length (series_set String.eqb d k v) <= length d + 1.
Proof.
  induction d as [|[k' v'] d IH]; simpl; [lia|].
  destruct (String.eqb k' k); simpl; lia.
Qed.

Lemma series_set_sum (d : list (string * nat)) (k : string) (v : nat) :
  sum_nat (map snd (series_set String.eqb d k v)) <= sum_nat (map snd d) + v.
Proof.
  induction d as [|[k' v'] d IH]; simpl; [lia|].
  destruct (String.eqb k' k); simpl; lia.
Qed.

Lemma combine_fst_snd {A B : Type} (l : list (A * B)) :
  combine (map fst l) (map snd l) = l.
Proof. induction l as [|[a b] l IH]; simpl; [reflexivity | now rewrite IH]. Qed.

Lemma country_counts_length (df : DataFrame) : length (country_counts df) <= 5.
Proof.
  unfold country_counts.
  destruct (4 <? length (value_counts (country_raw df))) eqn:E.
  - pose proof (series_set_length
                  (firstn 4 (value_counts (country_raw df))) "OTRO"
                  (sum_nat (map snd (skipn 4 (value_counts (country_raw df))))))
      as [_ L].
    pose proof (firstn_le_length 4 (value_counts (country_raw df))). lia.
  - apply Nat.ltb_ge in E. lia.
Qed.

(** The country distribution has at most five entries, one colour of the
    palette and one value per label; with at most four distinct countries it
    is the plain count per country; and its values never add up to more than
    [total_records]. *)
Theorem country_donut_shape (df : DataFrame) :
  let m := _aggregate_dashboard_metrics df in
  length (country_donut_labels m) <= 5 /\
  length (country_donut_values m) = length (country_donut_labels m) /\
  length (country_donut_colors m) = length (country_donut_labels m) /\
  (length (value_counts (country_raw df)) <= 4 ->
   combine (country_donut_labels m) (country_donut_values m)
   = value_counts (country_raw df)) /\
  sum_nat (country_donut_values m) <= total_records m.
Proof.
  cbv zeta.
  cbv [_aggregate_dashboard_metrics country_donut_labels country_donut_values
       country_donut_colors total_records].
  pose proof (country_counts_length df) as L.
  rewrite !length_map, length_firstn.
  split; [exact L|]. split; [reflexivity|].
  split; [change (length palette) with 6; lia|].
  split.
  - intros H. unfold country_counts.
    destruct (4 <? length (value_counts (country_raw df))) eqn:E;
      [apply Nat.ltb_lt in E; lia|].
    apply combine_fst_snd.
  - assert (S : sum_nat (map snd (value_counts (country_raw df))) = length df).
    { rewrite value_counts_sum. apply length_map. }
    unfold country_counts.
    destruct (4 <? length (value_counts (country_raw df))); [|lia].
    eapply Nat.le_trans; [apply series_set_sum|].
    rewrite <- S.
    rewrite <- (firstn_skipn 4 (value_counts (country_raw df))) at 3.
    rewrite map_app, sum_nat_app. lia.
Qed.

Lemma country_donut_shape_witness :
  let m := _aggregate_dashboard_metrics (classify [lost_row; unknown_plain_row]) in
  combine (country_donut_labels m) (country_donut_values m) = [("MX", 2)].
Proof.
  destruct (country_donut_shape (classify [lost_row; unknown_plain_row]))
    as [_ [_ [_ [E _]]]].
  cbv zeta. rewrite E; [reflexivity|]. vm_compute. lia.
Defined.





(** * Filter values of the cases table *)




Lemma string_leb_strict (a b : string) :
  String.leb a b = true /\ a <> b -> string_lt a b.
Proof.
  unfold String.leb, string_lt, String.ltb. intros [L N].
  destruct (String.compare a b) eqn:C; [|reflexivity|discriminate].
  apply String.compare_eq_iff in C. contradiction.
Qed.

Lemma sort_strings_sorted (l : list string) :
  NoDup l -> Sorted string_lt (sort_by String.leb l) /\ NoDup (sort_by String.leb l).
Proof.
  intros N. split; [|now apply sort_by_NoDup].
  apply Sorted_weaken with (R := fun a b => String.leb a b = true /\ a <> b).
  - intros a b. apply string_leb_strict.
  - apply Sorted_strict; [|now apply sort_by_NoDup].
    apply sort_by_sorted, String.leb_total.
Qed.

Lemma nonblank_values_NoDup (col : list string) : NoDup (nonblank_values col).
Proof. apply NoDup_filter, (unique_NoDup _ string_eqb_spec). Qed.


Lemma sorted_set_spec (l : list string) :
  Sorted string_lt (sorted_set l) /\ NoDup (sorted_set l) /\
  (forall x, In x (sorted_set l) <-> In x l).
Proof.
  unfold sorted_set.
  destruct (sort_strings_sorted _ (unique_NoDup _ string_eqb_spec l)) as [S N].
  split; [exact S|]. split; [exact N|].
  intros x. now rewrite sort_by_In, (unique_In _ string_eqb_spec).
Qed.

(** Each of the four filter lists is in strictly ascending order, so it
    holds no value twice. *)
Theorem casos_filters_sorted (df : DataFrame) :
  let f := casos_filters df in
  Forall (fun l => Sorted string_lt l /\ NoDup l)
         [operators f; types f; banks f; statuses f].
Proof.
  cbv zeta. destruct df as [|r df].
  - repeat constructor.
  - cbv [casos_filters operators types banks statuses].
    repeat constructor;
      try (apply sort_strings_sorted, nonblank_values_NoDup);
      try apply sorted_set_spec.
Qed.




Lemma rendered_status_fill (r : Row) :
  rendered_status (fill_display r) = fillna (status r) "N/A".
Proof.
  unfold rendered_status, fill_display; cbv [d_status].
  now destruct (in_STATUS_CONFIG (fillna (status r) "N/A")).
Qed.

(** The status filter lists the raw statuses of the frame, with "N/A"
    standing for the rows that have none. *)
Theorem casos_filters_statuses (df : DataFrame) (s : string) :
  In s (statuses (casos_filters df))
  <-> (exists r, In r df /\ status r = Some s)
      \/ (s = "N/A" /\ exists r, In r df /\ status r = None).
Proof.
  destruct df as [|r0 df].
  - simpl. split; [tauto | intros [[r [[] _]] | [_ [r [[] _]]]]].
  - cbv [casos_filters statuses df_display].
    destruct (sorted_set_spec
                (map rendered_status (map fill_display (r0 :: df))))
      as [_ [_ I]].
    rewrite I, map_map, in_map_iff. split.
    + intros [r [E Hr]]. rewrite rendered_status_fill in E.
      destruct (status r) as [y|] eqn:S; simpl in E; subst s;
        [left; eauto | right; eauto].
    + intros [[r [Hr E]] | [-> [r [Hr E]]]]; exists r;
        (split; [|exact Hr]); rewrite rendered_status_fill, E; reflexivity.
Qed.

(** * Cleaning values for serialisation *)

Lemma pyobj_nested_ind (P : pyobj -> Prop) :
  P PNone ->
  (forall b, P (PBool b)) ->
  (forall z, P (PInt z)) ->
  (forall s, P (PStr s)) ->
  (forall f, P (PFloat f)) ->
  (forall l, P (PTuple l)) ->
  (forall l, Forall P l -> P (PList l)) ->
  (forall d, Forall (fun kv => P (snd kv)) d -> P (PDict d)) ->
  forall o, P o.
Proof.
  intros HN HB HI HS HF HT HL HD.
  fix IH 1. intros o. destruct o as [|b|z|s|f|l|l|d].
  - exact HN.
  - apply HB.
  - apply HI.
  - apply HS.
  - apply HF.
  - apply HT.
  - apply HL. induction l as [|x l IHl]; constructor; [apply IH | exact IHl].
  - apply HD. induction d as [|kv d IHd]; constructor; [apply IH | exact IHd].
Qed.

Lemma clean_obj_safe (o : pyobj) : json_safe (clean_obj o) = true.
Proof.
  induction o as [|b|z|s|f|l|l IH|d IH] using pyobj_nested_ind;
    try reflexivity.
  - simpl. destruct (isnan f || isinf f) eqn:E; simpl; [reflexivity|].
    now rewrite E.
  - simpl. rewrite forallb_forall. intros x Hx.
    apply in_map_iff in Hx as [y [<- Hy]].
    rewrite Forall_forall in IH. now apply IH.
  - simpl. rewrite forallb_forall. intros x Hx.
    apply in_map_iff in Hx as [y [<- Hy]]. simpl.
    rewrite Forall_forall in IH. now apply IH.
Qed.

Lemma clean_obj_fixed (o : pyobj) : json_safe o = true -> clean_obj o = o.
Proof.
  induction o as [|b|z|s|f|l|l IH|d IH] using pyobj_nested_ind;
    try reflexivity; simpl.
  - intros H. apply negb_true_iff in H. now rewrite H.
  - intros H. f_equal. rewrite forallb_forall in H. rewrite Forall_forall in IH.
    rewrite <- (map_id l) at 2. apply map_ext_in. intros x Hx. auto.
  - intros H. f_equal. rewrite forallb_forall in H. rewrite Forall_forall in IH.
    rewrite <- (map_id d) at 2. apply map_ext_in. intros [k v] Hkv. simpl.
    f_equal. apply (IH (k, v) Hkv). apply (H (k, v) Hkv).
Qed.

(** After [clean_obj] no NaN and no infinity is left in any list or dict
    value of the object, at any depth; cleaning a second time changes
    nothing; and an object is returned unchanged exactly when it had no
    such float to begin with. *)
Theorem clean_obj_removes_bad_floats (o : pyobj) :
  json_safe (clean_obj o) = true /\
  clean_obj (clean_obj o) = clean_obj o /\
  (clean_obj o = o <-> json_safe o = true).
Proof.
  split; [apply clean_obj_safe|]. split.
  - apply clean_obj_fixed, clean_obj_safe.
  - split; [intros E; rewrite <- E; apply clean_obj_safe | apply clean_obj_fixed].
Qed.

(** * Committing the report *)

Ltac case_run r :=
  let rc := fresh "rc" in
  let out := fresh "out" in
  let err := fresh "err" in
  destruct r as [|rc out err];
  [| destruct (Z.eqb rc 0) eqn:?;
     try destruct (contains "nothing to commit" (lower out)
                   || contains "nothing to commit" (lower err)) eqn:? ].

Ltac case_status r :=
  let rc := fresh "rc" in
  let out := fresh "out" in
  let err := fresh "err" in
  destruct r as [|rc out err];
  [| destruct (contains "not a git repository" (lower err)
               || contains "not recognized" (lower err)) eqn:? ].

(** The commands run are always an initial part of the same sequence
    [git --version], [git status], [git add], [git commit], [git push],
    starting with at least [git --version]; a later command is never run
    without all the earlier ones. *)
Theorem push_commands_in_order (file_path now : string) (env : GitEnv) :
  exists n, 1 <= n <= 5 /\
    commands (push_to_github file_path now env)
    = firstn n (git_commands file_path now).
Proof.
  destruct env as [v s a c p]. unfold push_to_github, run_checked, on_exception.
  cbv [r_version r_status r_add r_commit r_push].
  case_run v; try (exists 1; split; [lia | reflexivity]).
  all: case_status s; try (exists 2; split; [lia | reflexivity]).
  all: case_run a; try (exists 3; split; [lia | reflexivity]).
  all: case_run c; try (exists 4; split; [lia | reflexivity]).
  all: case_run p; exists 5; split; try lia; reflexivity.
Qed.

(** [git push] is run exactly when [git --version], [git add] and
    [git commit] all returned 0 and [git status] did not report a missing
    repository; and the success message is printed exactly when, in
    addition, [git push] returned 0. *)
Theorem push_only_after_commit (file_path now : string) (env : GitEnv) :
  let t := push_to_github file_path now env in
  let ready := succeeded (r_version env) && repository_found (r_status env)
               && succeeded (r_add env) && succeeded (r_commit env) in
  (In git_push (commands t) <-> ready = true) /\
  (In MsgPushed (messages t) <-> ready && succeeded (r_push env) = true).
Proof.
  destruct env as [v s a c p]. unfold push_to_github, run_checked, on_exception.
  cbv [r_version r_status r_add r_commit r_push succeeded repository_found].
  case_run v; case_status s; case_run a; case_run c; case_run p;
    cbn [commands messages In andb negb];
    unfold git_version, git_status, git_add, git_commit, git_push;
    (split; split; intros H;
     repeat match goal with
            | H : _ \/ _ |- _ => destruct H
            | H : False |- _ => destruct H
            end;
     try discriminate; try reflexivity; tauto).
Qed.

(** When everything up to [git commit] went well and the commit fails
    saying there is nothing to commit, the function reports that there were
    no changes, as its only message after the opening one, and does not
    push. *)
Theorem push_skipped_when_nothing_to_commit (file_path now : string)
  (env : GitEnv) :
  succeeded (r_version env) = true ->
  repository_found (r_status env) = true ->
  succeeded (r_add env) = true ->
  succeeded (r_commit env) = false ->
  says_nothing_to_commit (r_commit env) = true ->
  messages (push_to_github file_path now env) = [MsgCommitting; MsgNoChanges] /\
  commands (push_to_github file_path now env)
  = [git_version; git_status; git_add file_path; git_commit now].
Proof.
  destruct env as [v s a c p]. unfold push_to_github, run_checked, on_exception.
  cbv [r_version r_status r_add r_commit r_push succeeded repository_found
       says_nothing_to_commit].
  intros Hv Hs Ha Hc Hn.
  destruct v as [|rv ov ev]; [discriminate|]. rewrite Hv.
  destruct s as [|rs os es]; [discriminate|].
  apply negb_true_iff in Hs. rewrite Hs.
  destruct a as [|ra oa ea]; [discriminate|]. rewrite Ha.
  destruct c as [|rc oc ec]; [discriminate|]. rewrite Hc, Hn.
  split; reflexivity.
Qed.

Lemma push_skipped_when_nothing_to_commit_witness :
  messages (push_to_github "dashboard_output.html" "2024-05-01 10:00"
              (mkGitEnv (Completed 0 "git version 2.40" "")
                        (Completed 0 "On branch main" "")
                        (Completed 0 "" "")
                        (Completed 1 "nothing to commit, working tree clean" "")
                        NotFound))
  = [MsgCommitting; MsgNoChanges].
Proof.
  apply (push_skipped_when_nothing_to_commit
           "dashboard_output.html" "2024-05-01 10:00"
           (mkGitEnv (Completed 0 "git version 2.40" "")
                     (Completed 0 "On branch main" "")
                     (Completed 0 "" "")
                     (Completed 1 "nothing to commit, working tree clean" "")
                     NotFound)); reflexivity.
Defined.

(** * Month labels and small rankings *)

Lemma digit_inj (a b : nat) : a < 10 -> b < 10 -> digit a = digit b -> a = b.
Proof.
  intros Ha Hb E. unfold digit in E.
  apply (f_equal nat_of_ascii) in E.
  rewrite !nat_ascii_embedding in E
    by (pose proof (Nat.mod_upper_bound a 10); pose proof (Nat.mod_upper_bound b 10); lia).
  rewrite !Nat.mod_small in E by assumption. lia.
Qed.

Lemma digit_mod (n : nat) : digit n = digit (n mod 10).
Proof. unfold digit. now rewrite Nat.Div0.mod_mod. Qed.

Lemma digit_eq_mod (a b : nat) : digit a = digit b -> a mod 10 = b mod 10.
Proof.
  intros E. rewrite (digit_mod a), (digit_mod b) in E.
  apply digit_inj in E; [exact E | |]; apply Nat.mod_upper_bound; lia.
Qed.

Lemma four_digits (n : nat) :
  n = 10 * (10 * (10 * (n / 1000) + (n / 100) mod 10) + (n / 10) mod 10) + n mod 10.
Proof.
  replace (n / 1000) with (n / 10 / 10 / 10)
    by (rewrite !Nat.Div0.div_div; reflexivity).
  replace (n / 100) with (n / 10 / 10)
    by (rewrite !Nat.Div0.div_div; reflexivity).
  pose proof (Nat.div_mod_eq n 10) as E0.
  pose proof (Nat.div_mod_eq (n / 10) 10) as E1.
  pose proof (Nat.div_mod_eq (n / 10 / 10) 10) as E2.
  generalize dependent (n mod 10). generalize dependent ((n / 10) mod 10).
  generalize dependent ((n / 10 / 10) mod 10).
  generalize dependent (n / 10 / 10 / 10). generalize dependent (n / 10 / 10).
  generalize dependent (n / 10).
  intros. lia.
Qed.

(** A label determines its month, for years of up to four digits and
    months of up to two. *)
Lemma period_str_inj (a b : Period) :
  p_year a < 100 * 100 -> p_month a < 100 ->
  p_year b < 100 * 100 -> p_month b < 100 ->
  period_str a = period_str b -> a = b.
Proof.
  destruct a as [ya ma], b as [yb mb]; unfold period_str; cbv [p_year p_month].
  intros Hya Hma Hyb Hmb E.
  assert (D1 : digit (ya / 1000) = digit (yb / 1000))
    by (injection E; intros; assumption).
  assert (D2 : digit (ya / 100) = digit (yb / 100))
    by (injection E; intros; assumption).
  assert (D3 : digit (ya / 10) = digit (yb / 10))
    by (injection E; intros; assumption).
  assert (D4 : digit ya = digit yb) by (injection E; intros; assumption).
  assert (D5 : digit (ma / 10) = digit (mb / 10))
    by (injection E; intros; assumption).
  assert (D6 : digit ma = digit mb) by (injection E; intros; assumption).
  clear E.
  apply digit_eq_mod in D1, D2, D3, D4, D5, D6.
  assert (Ya : ya / 1000 < 10) by (apply Nat.Div0.div_lt_upper_bound; lia).
  assert (Yb : yb / 1000 < 10) by (apply Nat.Div0.div_lt_upper_bound; lia).
  assert (Ma : ma / 10 < 10) by (apply Nat.Div0.div_lt_upper_bound; lia).
  assert (Mb : mb / 10 < 10) by (apply Nat.Div0.div_lt_upper_bound; lia).
  rewrite (Nat.mod_small _ _ Ya), (Nat.mod_small _ _ Yb) in D1.
  rewrite (Nat.mod_small _ _ Ma), (Nat.mod_small _ _ Mb) in D5.
  pose proof (four_digits ya) as Fa. pose proof (four_digits yb) as Fb.
  pose proof (Nat.div_mod_eq ma 10) as Ga. pose proof (Nat.div_mod_eq mb 10) as Gb.
  rewrite D1, D2, D3, D4 in Fa. rewrite D5, D6 in Ga.
  f_equal; congruence.
Qed.

Lemma NoDup_map_in {A B : Type} (f : A -> B) (l : list A) :
  (forall x y, In x l -> In y l -> f x = f y -> x = y) ->
  NoDup l -> NoDup (map f l).
Proof.
  intros Inj N. induction N as [|x l Hx N IH]; simpl; constructor.
  - intros H. apply in_map_iff in H as [y [E Hy]].
    assert (y = x) by (apply Inj; [now right | now left | exact E]).
    now subst.
  - apply IH. intros a b Ha Hb. apply Inj; now right.
Qed.

(** When the dates of the series' column have years below 10000 and months
    below 100, the month labels are pairwise distinct: two different months
    never share a label. *)
Theorem month_labels_distinct (date_col : Row -> option Timestamp)
  (df : DataFrame) :
  (forall r t, In r df -> date_col r = Some t ->
               ts_year t < 100 * 100 /\ ts_month t < 100) ->
  NoDup (month_labels (_get_time_series date_col df)).
Proof.
  intros B. cbv [_get_time_series month_labels].
  apply NoDup_map_in; [|apply months_sorted_NoDup].
  assert (R : forall m, In m (months_sorted date_col df) ->
                        p_year m < 100 * 100 /\ p_month m < 100).
  { intros m Hm. apply months_sorted_In in Hm as [r [Hr E]].
    destruct (date_col r) as [t|] eqn:D; [|discriminate].
    injection E as <-. apply (B r t Hr D). }
  intros x y Hx Hy. apply period_str_inj; now apply R.
Qed.

Lemma month_labels_distinct_witness :
  NoDup (month_labels (_get_time_series col_payment_date
                         (classify [lost_row; unknown_plain_row]))).
Proof.
  apply month_labels_distinct.
  intros r t [<-|[<-|[]]] E; injection E as <-; simpl; lia.
Defined.

(** With at most ten distinct operators (banks) the ranking table lists
    every one of them: a key is in the table exactly when some row has it. *)
Theorem ranking_complete_when_small (col : Row -> option string)
  (df : DataFrame) (k : string) :
  length (group_keys col df) <= 10 ->
  (In k (map key (top10 col df)) <-> exists r, In r df /\ col r = Some k).
Proof.
  intros L. unfold top10.
  rewrite firstn_all2
    by (rewrite sort_by_length; unfold groupby_agg; now rewrite length_map).
  rewrite <- group_keys_In, <- groupby_keys.
  split; apply Permutation_in, Permutation_map;
    [apply sort_by_perm | apply Permutation_sym, sort_by_perm].
Qed.

Lemma ranking_complete_when_small_witness :
  In "telcel" (map key (top10 col_operator (classify [lost_row; unknown_plain_row]))).
Proof.
  apply (ranking_complete_when_small col_operator
           (classify [lost_row; unknown_plain_row]) "telcel").
  - vm_compute. lia.
  - exists (add_columns lost_row). split; [now left | reflexivity].
Defined.
